(** * Invoice resource of the Razorpay TypeScript client

    A shallow embedding of [src/resources/invoices.ts]: the class
    [RazorInvoices] with its six operations [create], [fetchAll], [fetch],
    [cancel], [edit] and [notify], over a model of the JavaScript values the
    operations inspect (truthiness, property reads, spread, template
    literals) and of the transport they delegate to. *)

From Stdlib Require Import Floats.PrimFloat.
From stdpp Require Import gmap strings list fin_maps.

Set Warnings "-register-all".

(** ** JavaScript values *)

(** The data values a caller can hand to the client: primitives, [Date]
    objects (by their time value), arrays and plain objects.  A number is an
    IEEE 754 double, as in JavaScript.  Objects are records of data
    properties with string keys.  Functions and symbols are not data and are
    left out: a property of an object is never callable, so an object with
    an own property named [toString] has no string form. *)
Inductive value : Type :=
| VUndefined
| VNull
| VBool (b : bool)
| VNum (n : float)
| VStr (s : string)
| VDate (t : float)
| VArr (items : list value)
| VObj (fields : gmap string value).

(** [o.k] on a plain object: the own property, or [undefined]. *)
Definition get (o : gmap string value) (k : string) : value :=
  default VUndefined (o !! k).

(** ECMAScript [ToBoolean]: [undefined], [null], [false], [+0], [-0], [NaN]
    and the empty string are falsy, everything else is truthy. *)
Definition ToBoolean (v : value) : bool :=
  match v with
  | VUndefined | VNull => false
  | VBool b => b
  | VNum n => negb (PrimFloat.is_nan n || PrimFloat.eqb n 0%float)
  | VStr s => match s with EmptyString => false | String _ _ => true end
  | VDate _ | VArr _ | VObj _ => true
  end.

(** [a || b] *)
Definition or_else (a b : value) : value :=
  if ToBoolean a then a else b.

(** [v?.length === 0].  Arrays and strings carry a [length]; a plain object
    has one only as an own property, and strict equality with [0] holds for
    the numbers [+0] and [-0] alone; on every other value the read gives
    [undefined]. *)
Definition length_is_0 (v : value) : bool :=
  match v with
  | VArr items => match items with [] => true | _ :: _ => false end
  | VStr s => match s with EmptyString => true | String _ _ => false end
  | VObj o => match o !! "length" with
              | Some (VNum n) => PrimFloat.eqb n 0%float
              | _ => false
              end
  | _ => false
  end.

(** Builtins of the host that the model does not compute itself. *)
Class Builtins := {
  (** [StringToNumber] of ECMAScript, the value of [Number(s)] on a string *)
  StringToNumber : string -> float;
  (** [Number.prototype.toString], the decimal rendering of a double *)
  Number_toString : float -> string;
  (** [Date.prototype.toString] on a time value *)
  Date_toString : float -> string
}.

(** The module [../helper], imported by the source and absent from it: the
    function [normalizeDate] is taken as a parameter. *)
Class Helper := {
  normalizeDate : value -> value
}.

(** Exceptions thrown synchronously by the language itself. *)
Inductive Exception : Type :=
| TypeError.

Inductive Completion (A : Type) : Type :=
| Normal (a : A)
| Throw (e : Exception).
Arguments Normal {A} a.
Arguments Throw {A} e.

Section Coercions.
Context `{Builtins}.

(** ECMAScript [ToString], as applied by a template literal.  An array is
    joined with commas, [undefined] and [null] elements giving the empty
    string.  A plain object goes through [OrdinaryToPrimitive]: it inherits
    [Object.prototype.toString] unless it has an own property [toString];
    that one is data, hence not callable and skipped, and [valueOf] (own and
    not callable, or inherited and returning the object) gives no primitive
    either, so the conversion throws a [TypeError]. *)
Fixpoint ToString (v : value) : Completion string :=
  match v with
  | VUndefined => Normal "undefined"
  | VNull => Normal "null"
  | VBool true => Normal "true"
  | VBool false => Normal "false"
  | VNum n => Normal (Number_toString n)
  | VStr s => Normal s
  | VDate t => Normal (Date_toString t)
  | VArr items =>
      (fix join (l : list value) : Completion string :=
         match l with
         | [] => Normal ""
         | x :: rest =>
             match (match x with
                    | VUndefined | VNull => Normal ""
                    | _ => ToString x
                    end) with
             | Throw e => Throw e
             | Normal e =>
                 match rest with
                 | [] => Normal e
                 | _ :: _ =>
                     match join rest with
                     | Throw e' => Throw e'
                     | Normal r => Normal (e +:+ "," +:+ r)
                     end
                 end
             end
         end) items
  | VObj o =>
      match o !! "toString" with
      | None => Normal "[object Object]"
      | Some _ => Throw TypeError
      end
  end.

(** [Number(v)]: ECMAScript [ToNumber].  Arrays go through their string
    form.  A plain object goes through [OrdinaryToPrimitive] as well: with
    an own [toString] it throws, without one its string form is
    ["[object Object]"], which is not a numeric literal. *)
Definition Number (v : value) : Completion float :=
  match v with
  | VUndefined => Normal nan
  | VNull => Normal 0%float
  | VBool true => Normal 1%float
  | VBool false => Normal 0%float
  | VNum n => Normal n
  | VStr s => Normal (StringToNumber s)
  | VDate t => Normal t
  | VArr _ =>
      match ToString v with
      | Normal s => Normal (StringToNumber s)
      | Throw e => Throw e
      end
  | VObj o =>
      match o !! "toString" with
      | None => Normal nan
      | Some _ => Throw TypeError
      end
  end.
End Coercions.

(** ** The transport and the promises the operations return *)

Inductive Method : Type := GET | POST | PATCH.

(** The argument of [this.api.get/post/patch]: [{ url, data }];
    [data = None] when the key is not given. *)
Record Request := {
  method : Method;
  url : string;
  data : option value
}.

(** What the transport's promise settles to: a parsed response body, or a
    failure that this layer does not interpret. *)
Inductive TransportResult : Type :=
| Response (body : value)
| Failure (e : value).

(** The transport collaborator: its answer to a request may depend on the
    requests issued before. *)
Definition Transport := list Request -> Request -> TransportResult.

(** Modelled from the spec: [MISSING_ID_ERROR] and [FIELD_MANDATORY_ERROR]
    are members of the base class [RazorResourceInterface], which is not
    part of the source; the spec gives them as a "missing identifier" error
    and a "field mandatory" error parameterized by the field name.  They are
    kept symbolic, next to the plain strings the class itself rejects with
    and to the transport's opaque failures. *)
Inductive Reason : Type :=
| RejString (message : string)
| MISSING_ID_ERROR
| FIELD_MANDATORY_ERROR (field : string)
| TransportError (e : value).

(** The settled state of the promise an operation returns. *)
Inductive Settled : Type :=
| Fulfilled (v : value)
| Rejected (r : Reason).

Definition settle (r : TransportResult) : Settled :=
  match r with
  | Response body => Fulfilled body
  | Failure e => Rejected (TransportError e)
  end.

(** An operation runs against the log of the requests issued so far; it
    returns normally or throws, and leaves the new log. *)
Definition IO (A : Type) : Type := list Request -> Completion A * list Request.

#[export] Instance IO_ret : MRet IO :=
  fun A (a : A) log => (Normal a, log).

#[export] Instance IO_bind : MBind IO :=
  fun A B (k : A -> IO B) (m : IO A) log =>
    match m log with
    | (Normal a, log') => k a log'
    | (Throw e, log') => (Throw e, log')
    end.

Definition throw {A} (e : Exception) : IO A := fun log => (Throw e, log).

Definition lift {A} (c : Completion A) : IO A :=
  match c with
  | Normal a => mret a
  | Throw e => throw e
  end.

(** [Promise.reject(reason)] *)
Definition Promise_reject (r : Reason) : IO Settled := mret (Rejected r).

(** The fields of [RazorResourceInterface] the operations read through
    [this]. *)
Record RazorInvoices := {
  resourceUrl : string;
  api : Transport
}.

(** [this.api.<method>({ url, data })] *)
Definition api_call (this : RazorInvoices) (m : Method) (u : string)
    (d : option value) : IO Settled :=
  fun log =>
    let req := {| method := m; url := u; data := d |} in
    (Normal (settle (api this log req)), log ++ [req]).

(** ** create *)

Definition CUSTOMER_ERROR : Reason :=
  RejString "Ether `customer_id` or `customer` must be provided but found none.".

Definition ITEM_NAME_ERROR : Reason :=
  RejString "Ether `item_id` or `name` must be provided but found none.".

Definition ITEM_AMOUNT_ERROR : Reason :=
  RejString "Ether `item_id` or `amount` must be provided but found none.".

(** The sequence a [for ... of] loop runs over.  Arrays yield their
    elements, a string yields its characters; the other values are not
    iterable. *)
Definition iterate (v : value) : Completion (list value) :=
  match v with
  | VArr items => Normal items
  | VStr s => Normal ((fun c => VStr (String c EmptyString)) <$> String.list_ascii_of_string s)
  | _ => Throw TypeError
  end.

(** The binding pattern [{ item_id, name, amount }] applied to one element:
    it throws on [undefined] and [null]; on a primitive, an array or a date
    none of the three names is a property. *)
Definition destructure_item (it : value) : Completion (value * value * value) :=
  match it with
  | VUndefined | VNull => Throw TypeError
  | VObj o => Normal (get o "item_id", get o "name", get o "amount")
  | _ => Normal (VUndefined, VUndefined, VUndefined)
  end.

(** The body of the loop on one element: [Some r] when it returns
    [Promise.reject(r)], [None] when it falls through to the next one. *)
Definition check_item (it : value) : Completion (option Reason) :=
  match destructure_item it with
  | Throw e => Throw e
  | Normal (item_id, name, amount) =>
      if negb (ToBoolean item_id) && negb (ToBoolean name) then
        Normal (Some ITEM_NAME_ERROR)
      else if negb (ToBoolean item_id) && negb (ToBoolean amount) then
        Normal (Some ITEM_AMOUNT_ERROR)
      else Normal None
  end.

(** The loop [for (const { item_id, name, amount } of line_items)]. *)
Fixpoint check_items (items : list value) : Completion (option Reason) :=
  match items with
  | [] => Normal None
  | it :: rest =>
      match check_item it with
      | Throw e => Throw e
      | Normal (Some r) => Normal (Some r)
      | Normal None => check_items rest
      end
  end.

Definition create (this : RazorInvoices) (params : gmap string value) : IO Settled :=
  let line_items := get params "line_items" in
  let customer_id := get params "customer_id" in
  let customer := get params "customer" in
  if negb (ToBoolean customer_id) && negb (ToBoolean customer) then
    Promise_reject CUSTOMER_ERROR
  else if negb (ToBoolean line_items) || length_is_0 line_items then
    Promise_reject (FIELD_MANDATORY_ERROR "line_items")
  else
    items ← lift (iterate line_items);
    early ← lift (check_items items);
    match early with
    | Some r => Promise_reject r
    | None =>
        api_call this POST (resourceUrl this)
          (Some (VObj (params ∪ {[ "type" := VStr "invoice" ]})))
    end.

(** ** fetchAll, fetch, cancel, edit, notify *)

Section Operations.
Context `{Builtins} `{Helper}.

(** [fetchAll(query = {})]: [None] is the omitted ([undefined]) argument. *)
Definition fetchAll (this : RazorInvoices) (query : option (gmap string value))
    : IO Settled :=
  let query := default ∅ query in
  let from := get query "from" in
  let to := get query "to" in
  let from := if ToBoolean from then normalizeDate from else from in
  let to := if ToBoolean to then normalizeDate to else to in
  count ← lift (Number (get query "count"));
  skip ← lift (Number (get query "skip"));
  let count := or_else (VNum count) (VNum 10%float) in
  let skip := or_else (VNum skip) (VNum 0%float) in
  api_call this GET (resourceUrl this)
    (Some (VObj (<["skip" := skip]> (<["count" := count]>
                  (<["to" := to]> (<["from" := from]> query)))))).

Definition fetch (this : RazorInvoices) (invoiceId : value) : IO Settled :=
  if negb (ToBoolean invoiceId) then
    Promise_reject MISSING_ID_ERROR
  else
    id ← lift (ToString invoiceId);
    api_call this GET (resourceUrl this +:+ "/" +:+ id) None.

Definition cancel (this : RazorInvoices) (invoiceId : value) : IO Settled :=
  if negb (ToBoolean invoiceId) then
    Promise_reject MISSING_ID_ERROR
  else
    id ← lift (ToString invoiceId);
    api_call this POST (resourceUrl this +:+ "/" +:+ id +:+ "/cancel") None.

Definition edit (this : RazorInvoices) (invoiceId : value) (params : value)
    : IO Settled :=
  if negb (ToBoolean invoiceId) then
    Promise_reject MISSING_ID_ERROR
  else if negb (ToBoolean params) then
    Promise_reject (FIELD_MANDATORY_ERROR "Params")
  else
    id ← lift (ToString invoiceId);
    api_call this PATCH (resourceUrl this +:+ "/" +:+ id) (Some params).

Definition notify (this : RazorInvoices) (invoiceId : value) (medium : value)
    : IO Settled :=
  if negb (ToBoolean invoiceId) then
    Promise_reject MISSING_ID_ERROR
  else
    id ← lift (ToString invoiceId);
    m ← lift (ToString medium);
    api_call this POST
      (resourceUrl this +:+ "/" +:+ id +:+ "/notify_by/" +:+ m) None.
End Operations.

(** ** Vocabulary of the specification *)

Definition truthy (v : value) : Prop := ToBoolean v = true.
Definition falsy (v : value) : Prop := ToBoolean v = false.

(** A line item that satisfies both either/or rules: an object carrying
    ([item_id] or [name]) and ([item_id] or [amount]). *)
Definition item_ok (it : value) : Prop :=
  exists o, it = VObj o
    /\ (truthy (get o "item_id") \/ truthy (get o "name"))
    /\ (truthy (get o "item_id") \/ truthy (get o "amount")).

(** A draft that passes the three validation checks of [create]. *)
Definition valid_draft (params : gmap string value) : Prop :=
  (truthy (get params "customer_id") \/ truthy (get params "customer"))
  /\ exists items, get params "line_items" = VArr items
       /\ items <> []
       /\ Forall item_ok items.

(** The request an operation hands to the transport. *)
Definition request (m : Method) (u : string) (d : option value) : Request :=
  {| method := m; url := u; data := d |}.

(** [sends this req m log]: run from [log], the operation [m] issues the one
    request [req] and nothing else, and its promise settles exactly as the
    transport's does. *)
Definition sends (this : RazorInvoices) (req : Request) (m : IO Settled)
    (log : list Request) : Prop :=
  m log = (Normal (settle (api this log req)), log ++ [req]).

(** [rejects_locally r m log]: the operation returns [Promise.reject(r)]
    and issues no request. *)
Definition rejects_locally (r : Reason) (m : IO Settled) (log : list Request)
    : Prop :=
  m log = (Normal (Rejected r), log).

(** ** A host and a transport to run the model on *)

Definition decimal_digit (c : Ascii.ascii) : option float :=
  nth_error [0; 1; 2; 3; 4; 5; 6; 7; 8; 9]%float (Ascii.nat_of_ascii c - 48).

Fixpoint parse_digits (acc : float) (s : string) : option float :=
  match s with
  | EmptyString => Some acc
  | String c rest =>
      if (48 <=? Ascii.nat_of_ascii c)%nat then
        match decimal_digit c with
        | Some d => parse_digits (acc * 10 + d)%float rest
        | None => None
        end
      else None
  end.

(** The host of the examples.  It reads unsigned decimal integers (the
    empty string is [0], any other text is not a number) and renders the
    three numbers that have a fixed name; the examples convert nothing
    else. *)
#[export] Instance example_builtins : Builtins := {|
  StringToNumber s :=
    match s with
    | EmptyString => 0%float
    | String _ _ => default nan (parse_digits 0%float s)
    end;
  Number_toString n :=
    if PrimFloat.eqb n infinity then "Infinity"
    else if PrimFloat.eqb n neg_infinity then "-Infinity"
    else "NaN";
  Date_toString _ := "Invalid Date"
|}.

(** Timestamps pass through, a [Date] gives its seconds, other inputs are
    not dates for this host. *)
#[export] Instance example_helper : Helper := {|
  normalizeDate v :=
    match v with
    | VNum _ => v
    | VDate t => VNum (t / 1000)%float
    | _ => VNum nan
    end
|}.

(** A transport that answers every request with an invoice record whose
    [id] counts the requests seen so far in unary. *)
Definition example_api : Transport :=
  fun log req =>
    Response (VObj {[ "entity" := VStr "invoice";
                      "id" := VStr (String.concat "" (replicate (length log) "i")) ]}).

Definition example_this : RazorInvoices :=
  {| resourceUrl := "/invoices"; api := example_api |}.

Definition example_item : value :=
  VObj {[ "item_id" := VStr "item_1"; "amount" := VNum 100%float ]}.

(** A draft as the specification describes it. *)
Definition example_draft : gmap string value :=
  {[ "customer_id" := VStr "cust_1"; "line_items" := VArr [example_item] ]}.

(** The same draft carrying a [type] of its own. *)
Definition example_draft_with_type : gmap string value :=
  <["type" := VStr "link"]> example_draft.

(** The same draft with both forms of customer identity. *)
Definition example_draft_both : gmap string value :=
  <["customer" := VObj {[ "name" := VStr "A" ]}]> example_draft.

(** An item with a name and no price. *)
Definition example_unpriced_item : value :=
  VObj {[ "name" := VStr "Book" ]}.

(** The unpriced item after a good one and before a [null], which would
    make the loop throw if it were reached. *)
Definition example_draft_unpriced : gmap string value :=
  <["line_items" := VArr [example_item; example_unpriced_item; VNull]]>
    example_draft.

(** An item with a name and the price [0]. *)
Definition example_free_item : value :=
  VObj {[ "name" := VStr "Gift"; "amount" := VNum 0%float ]}.

(** A query with a filter field besides the four normalized ones. *)
Definition example_query : gmap string value :=
  {[ "count" := VStr "abc"; "skip" := VNum (-1)%float;
     "from" := VDate 5000%float; "status" := VStr "paid" ]}.

(** A [null] item after a good one and before an unpriced one. *)
Definition example_draft_null_item : gmap string value :=
  <["line_items" := VArr [example_item; VNull; example_unpriced_item]]>
    example_draft.

(** A query whose pagination counters are a fraction and a negative
    number. *)
Definition example_paging_query : gmap string value :=
  {[ "count" := VNum 2.5%float; "skip" := VNum (-1)%float ]}.

(** What [create] can end with before it reaches the transport: the
    language's [TypeError], or one of its four rejections. *)
Definition local_completion (c : Completion Settled) : Prop :=
  c = Throw TypeError
  \/ c = Normal (Rejected CUSTOMER_ERROR)
  \/ c = Normal (Rejected (FIELD_MANDATORY_ERROR "line_items"))
  \/ c = Normal (Rejected ITEM_NAME_ERROR)
  \/ c = Normal (Rejected ITEM_AMOUNT_ERROR).

(** [issues_at_most_one m]: whatever was issued before, [m] keeps the log
    and adds the same requests to it, one at most. *)
Definition issues_at_most_one (m : IO Settled) : Prop :=
  exists reqs : list Request,
    length reqs <= 1 /\ forall log, snd (m log) = log ++ reqs.

(** The string an array contributes for one of its elements: empty for
    [undefined] and [null], the element's own string form otherwise. *)
Definition element_string `{Builtins} (x : value) (p : string) : Prop :=
  match x with
  | VUndefined | VNull => p = ""
  | _ => ToString x = Normal p
  end.

(** The data [fetchAll] sends for a query whose counters coerce to [count]
    and [skip]. *)
Definition normalized `{Helper} (query : gmap string value) (count skip : float)
    : gmap string value :=
  <["skip" := or_else (VNum skip) (VNum 0%float)]>
    (<["count" := or_else (VNum count) (VNum 10%float)]>
       (<["to" := if ToBoolean (get query "to")
                  then normalizeDate (get query "to") else get query "to"]>
          (<["from" := if ToBoolean (get query "from")
                       then normalizeDate (get query "from")
                       else get query "from"]> query))).

(** An object whose own [toString] is a string, not a function. *)
Definition example_unprintable : value :=
  VObj {[ "toString" := VStr "x" ]}.

(** An item whose name is present and empty, with the price [0]. *)
Definition example_unnamed_free_item : value :=
  VObj {[ "name" := VStr ""; "amount" := VNum 0%float ]}.

Definition example_draft_unnamed_free : gmap string value :=
  <["line_items" := VArr [example_unnamed_free_item]]> example_draft.

(** ** Properties of create *)

Lemma item_ok_check (it : value) : item_ok it -> check_item it = Normal None.
Proof.
  intros (o & -> & Hname & Hamount). unfold check_item, truthy in *. simpl.
  destruct (ToBoolean (get o "item_id")); [reflexivity |].
  destruct Hname as [Hn | Hn]; [discriminate |]. rewrite Hn.
  destruct Hamount as [Ha | Ha]; [discriminate |]. rewrite Ha.
  reflexivity.
Qed.

Lemma check_item_ok (it : value) : check_item it = Normal None -> item_ok it.
Proof.
  unfold check_item, item_ok, truthy.
  destruct it; simpl; try discriminate.
  destruct (ToBoolean (get fields "item_id")) eqn:Hid.
  - intros _. exists fields. auto.
  - destruct (ToBoolean (get fields "name")) eqn:Hn; [| discriminate].
    destruct (ToBoolean (get fields "amount")) eqn:Ha; [| discriminate].
    intros _. exists fields. auto.
Qed.

(** Items that satisfy the rules are stepped over by the loop. *)
Lemma check_items_skip (before rest : list value) :
  Forall item_ok before -> check_items (before ++ rest) = check_items rest.
Proof.
  induction 1 as [| it before Hit _ IH]; [reflexivity |].
  simpl. rewrite (item_ok_check it Hit). exact IH.
Qed.

Lemma check_items_pass (items : list value) :
  check_items items = Normal None <-> Forall item_ok items.
Proof.
  split.
  - induction items as [| it items IH]; [constructor |].
    simpl. destruct (check_item it) as [[r |] | e] eqn:Hit; try discriminate.
    intros Hrest. constructor; [apply check_item_ok, Hit | apply IH, Hrest].
  - intros Hall. rewrite <- (app_nil_r items). apply check_items_skip, Hall.
Qed.

(** The loop stops at an item that breaks a rule, whatever follows it. *)
Lemma check_items_stop (it : value) (r : Reason) (after : list value) :
  check_item it = Normal (Some r) -> check_items (it :: after) = Normal (Some r).
Proof. intros Hit. simpl. rewrite Hit. reflexivity. Qed.

(** The four ways out of [create], in the order of the source. *)
Lemma create_cases (this : RazorInvoices) (params : gmap string value)
    (log : list Request) :
  create this params log =
    if negb (ToBoolean (get params "customer_id"))
       && negb (ToBoolean (get params "customer")) then
      (Normal (Rejected CUSTOMER_ERROR), log)
    else if negb (ToBoolean (get params "line_items"))
            || length_is_0 (get params "line_items") then
      (Normal (Rejected (FIELD_MANDATORY_ERROR "line_items")), log)
    else
      match iterate (get params "line_items") with
      | Throw e => (Throw e, log)
      | Normal items =>
          match check_items items with
          | Throw e => (Throw e, log)
          | Normal (Some r) => (Normal (Rejected r), log)
          | Normal None =>
              api_call this POST (resourceUrl this)
                (Some (VObj (params ∪ {[ "type" := VStr "invoice" ]}))) log
          end
      end.
Proof.
  unfold create.
  destruct (negb (ToBoolean (get params "customer_id"))
            && negb (ToBoolean (get params "customer"))); [reflexivity |].
  destruct (negb (ToBoolean (get params "line_items"))
            || length_is_0 (get params "line_items")); [reflexivity |].
  unfold mbind, IO_bind, lift.
  destruct (iterate (get params "line_items")) as [items | e]; [| reflexivity].
  simpl. destruct (check_items items) as [[r |] | e]; reflexivity.
Qed.

Lemma identity_check_passes (a b : value) :
  truthy a \/ truthy b -> negb (ToBoolean a) && negb (ToBoolean b) = false.
Proof. unfold truthy. intros [-> | ->]; simpl; [reflexivity | apply andb_false_r]. Qed.

(** A draft passes the three checks exactly when [create] reaches the
    transport. *)
Lemma create_valid_posts (this : RazorInvoices) (params : gmap string value)
    (log : list Request) :
  valid_draft params ->
  create this params log =
    api_call this POST (resourceUrl this)
      (Some (VObj (params ∪ {[ "type" := VStr "invoice" ]}))) log.
Proof.
  intros (Hid & items & Hli & Hne & Hall).
  rewrite create_cases, (identity_check_passes _ _ Hid), Hli. simpl.
  destruct items as [| it items]; [congruence |]. simpl.
  change (match check_item it with
          | Normal (Some r) => Normal (Some r)
          | Normal None => check_items items
          | Throw e => Throw e
          end) with (check_items (it :: items)).
  apply check_items_pass in Hall. rewrite Hall. reflexivity.
Qed.

(** Conversely, only a draft that passes the three checks makes [create]
    issue a request. *)
Lemma create_request_only_if_valid (this : RazorInvoices)
    (params : gmap string value) (log : list Request) :
  snd (create this params log) <> log -> valid_draft params.
Proof.
  rewrite create_cases. unfold valid_draft, truthy.
  destruct (negb (ToBoolean (get params "customer_id"))
            && negb (ToBoolean (get params "customer"))) eqn:Hid;
    [simpl; congruence |].
  destruct (negb (ToBoolean (get params "line_items"))
            || length_is_0 (get params "line_items")) eqn:Hli;
    [simpl; congruence |].
  intros Hlog. split.
  - destruct (ToBoolean (get params "customer_id")); [left; reflexivity |].
    destruct (ToBoolean (get params "customer")); [right; reflexivity |].
    discriminate.
  - destruct (get params "line_items") as [| | | | s | | items |];
      simpl in Hlog; try congruence.
    + destruct s as [| c s]; simpl in Hli, Hlog; congruence.
    + destruct (check_items items) as [[r |] | e] eqn:Hitems;
        simpl in Hlog; try congruence.
      exists items. split; [reflexivity |]. split.
      * destruct items; [simpl in Hli | ]; discriminate.
      * apply check_items_pass, Hitems.
Qed.

(** C1 (as amended): for every draft that passes the three validation
    checks, [create] issues exactly one POST to the resource's base path and
    nothing else, and its promise settles as the transport's does.  The
    payload holds every field of the draft with its value and adds nothing
    but the key [type]; [type] is ['invoice'] when the draft has no [type]
    of its own, and the draft's own value otherwise. *)
Theorem create_posts_draft_with_default_type (this : RazorInvoices)
    (params : gmap string value) (log : list Request) :
  valid_draft params ->
  exists payload : gmap string value,
    sends this (request POST (resourceUrl this) (Some (VObj payload)))
      (create this params) log
    /\ (forall k v, params !! k = Some v -> payload !! k = Some v)
    /\ (forall k, k <> "type" -> payload !! k = params !! k)
    /\ (params !! "type" = None -> payload !! "type" = Some (VStr "invoice")).
Proof.
  intros Hvalid. exists (params ∪ {[ "type" := VStr "invoice" ]}).
  split; [| split; [| split]].
  - unfold sends. rewrite (create_valid_posts this params log Hvalid). reflexivity.
  - intros k v Hk. apply lookup_union_Some_l, Hk.
  - intros k Hk. rewrite lookup_union, lookup_singleton_ne by congruence.
    destruct (params !! k); reflexivity.
  - intros Hnone. rewrite lookup_union, Hnone, lookup_singleton_eq. reflexivity.
Qed.

Lemma example_draft_valid : valid_draft example_draft.
Proof.
  split; [left; reflexivity |].
  exists [example_item]. split; [reflexivity |]. split; [discriminate |].
  constructor; [| constructor].
  exists {[ "item_id" := VStr "item_1"; "amount" := VNum 100%float ]}.
  split; [reflexivity |]. split; left; reflexivity.
Defined.

Lemma create_posts_draft_with_default_type_witness :
  valid_draft example_draft
  /\ exists payload : gmap string value,
       sends example_this (request POST "/invoices" (Some (VObj payload)))
         (create example_this example_draft) []
       /\ (forall k v, example_draft !! k = Some v -> payload !! k = Some v)
       /\ (forall k, k <> "type" -> payload !! k = example_draft !! k)
       /\ (example_draft !! "type" = None
           -> payload !! "type" = Some (VStr "invoice")).
Proof.
  split; [exact example_draft_valid |].
  exact (create_posts_draft_with_default_type example_this example_draft []
           example_draft_valid).
Defined.

(** C1 (as stated) fails on a valid draft that has a [type] field: the one
    POST carries the draft's [type], not ['invoice']. *)
Lemma create_type_overridden_by_draft :
  valid_draft example_draft_with_type
  /\ exists payload : gmap string value,
       sends example_this (request POST "/invoices" (Some (VObj payload)))
         (create example_this example_draft_with_type) []
       /\ payload !! "type" = Some (VStr "link")
       /\ payload !! "type" <> Some (VStr "invoice").
Proof.
  assert (Hvalid : valid_draft example_draft_with_type).
  { split; [left; reflexivity |].
    exists [example_item]. split; [reflexivity |]. split; [discriminate |].
    constructor; [| constructor].
    exists {[ "item_id" := VStr "item_1"; "amount" := VNum 100%float ]}.
    split; [reflexivity |]. split; left; reflexivity. }
  split; [exact Hvalid |].
  exists (example_draft_with_type ∪ {[ "type" := VStr "invoice" ]}).
  split; [| split].
  - unfold sends. rewrite (create_valid_posts _ _ _ Hvalid). reflexivity.
  - reflexivity.
  - discriminate.
Qed.

Lemma check_item_reason (it : value) (r : Reason) :
  check_item it = Normal (Some r) -> r = ITEM_NAME_ERROR \/ r = ITEM_AMOUNT_ERROR.
Proof.
  unfold check_item.
  destruct (destructure_item it) as [[[item_id name] amount] | e]; [| discriminate].
  destruct (negb (ToBoolean item_id) && negb (ToBoolean name)).
  - intros [= <-]. left. reflexivity.
  - destruct (negb (ToBoolean item_id) && negb (ToBoolean amount)); [| discriminate].
    intros [= <-]. right. reflexivity.
Qed.

Lemma check_items_reason (items : list value) (r : Reason) :
  check_items items = Normal (Some r) -> r = ITEM_NAME_ERROR \/ r = ITEM_AMOUNT_ERROR.
Proof.
  induction items as [| it items IH]; [discriminate |].
  simpl. destruct (check_item it) as [[r' |] | e] eqn:Hit; [| exact IH | discriminate].
  intros [= <-]. apply (check_item_reason it), Hit.
Qed.

Lemma settle_not_local (t : TransportResult) (message : string) :
  settle t <> Rejected (RejString message).
Proof. destruct t; discriminate. Qed.

(** C2 (as amended): [create] rejects with the customer-identity error if
    and only if neither [customer_id] nor [customer] is truthy, and it then
    issues no request.  A draft that carries both is not rejected by this
    check. *)
Theorem create_rejects_identity_iff_neither (this : RazorInvoices)
    (params : gmap string value) (log log' : list Request) :
  create this params log = (Normal (Rejected CUSTOMER_ERROR), log')
  <-> falsy (get params "customer_id") /\ falsy (get params "customer")
      /\ log' = log.
Proof.
  rewrite create_cases. unfold falsy. split.
  - destruct (ToBoolean (get params "customer_id")),
             (ToBoolean (get params "customer")); simpl;
      try (intros [= <-]; auto);
      (destruct (negb (ToBoolean (get params "line_items"))
                 || length_is_0 (get params "line_items")); [discriminate |]);
      (destruct (iterate (get params "line_items")) as [items | e];
         [| discriminate]);
      (destruct (check_items items) as [[r |] | e] eqn:Hitems; [| | discriminate]);
      try (intros [= -> _]; apply check_items_reason in Hitems;
           destruct Hitems; discriminate);
      unfold api_call; intros [= Hsettle _];
      apply settle_not_local in Hsettle; contradiction.
  - intros (-> & -> & ->). reflexivity.
Qed.

(** C2 (as stated) fails on a draft that carries both [customer_id] and
    [customer]: not exactly one of them is truthy, and the draft is posted,
    not rejected. *)
Lemma create_accepts_both_identities :
  truthy (get example_draft_both "customer_id")
  /\ truthy (get example_draft_both "customer")
  /\ (exists payload : gmap string value,
        sends example_this (request POST "/invoices" (Some (VObj payload)))
          (create example_this example_draft_both) [])
  /\ fst (create example_this example_draft_both [])
     <> Normal (Rejected CUSTOMER_ERROR).
Proof.
  split; [reflexivity |]. split; [reflexivity |]. split.
  - exists (example_draft_both ∪ {[ "type" := VStr "invoice" ]}). reflexivity.
  - discriminate.
Qed.

(** The loop of [create] returns at the first item whose check rejects:
    the items before it passed, the items after it are not looked at. *)
Lemma create_stops_at_item (this : RazorInvoices) (params : gmap string value)
    (log : list Request) (before after : list value) (it : value) (r : Reason) :
  truthy (get params "customer_id") \/ truthy (get params "customer") ->
  get params "line_items" = VArr (before ++ it :: after) ->
  Forall item_ok before ->
  check_item it = Normal (Some r) ->
  rejects_locally r (create this params) log.
Proof.
  intros Hid Hli Hbefore Hcheck. unfold rejects_locally.
  rewrite create_cases, (identity_check_passes _ _ Hid), Hli.
  assert (Hlen : length_is_0 (VArr (before ++ it :: after)) = false)
    by (destruct before; reflexivity).
  rewrite Hlen. simpl.
  rewrite (check_items_skip before (it :: after) Hbefore).
  rewrite (check_items_stop it r after Hcheck). reflexivity.
Qed.

(** C3: in a draft that passes the customer-identity and [line_items]
    checks, let the array of line items be [before ++ it :: after], with
    every item of [before] satisfying both rules and [it] the first that
    does not: [it] has no truthy [item_id], and no truthy [name] or no
    truthy [amount].  Then [create] rejects with the error of the first rule
    [it] breaks, (item_id or name) being looked at before (item_id or
    amount), and issues no request.  The result does not depend on [after],
    whose items are arbitrary values: they are never examined. *)
Theorem create_rejects_at_first_offending_item (this : RazorInvoices)
    (params : gmap string value) (log : list Request)
    (before after : list value) (it item_id name amount : value) :
  truthy (get params "customer_id") \/ truthy (get params "customer") ->
  get params "line_items" = VArr (before ++ it :: after) ->
  Forall item_ok before ->
  destructure_item it = Normal (item_id, name, amount) ->
  falsy item_id ->
  falsy name \/ falsy amount ->
  rejects_locally
    (if ToBoolean name then ITEM_AMOUNT_ERROR else ITEM_NAME_ERROR)
    (create this params) log.
Proof.
  intros Hid Hli Hbefore Hit Hitem Hrule. unfold falsy in *.
  apply (create_stops_at_item this params log before after it); try assumption.
  unfold check_item. rewrite Hit, Hitem. simpl.
  destruct (ToBoolean name); [| reflexivity].
  destruct Hrule as [Hn | Ha]; [discriminate |]. rewrite Ha. reflexivity.
Qed.

Lemma example_item_ok : Forall item_ok [example_item].
Proof.
  constructor; [| constructor].
  exists {[ "item_id" := VStr "item_1"; "amount" := VNum 100%float ]}.
  split; [reflexivity |]. split; left; reflexivity.
Defined.

Lemma create_rejects_at_first_offending_item_witness :
  rejects_locally ITEM_AMOUNT_ERROR
    (create example_this example_draft_unpriced) [].
Proof.
  apply (create_rejects_at_first_offending_item example_this
           example_draft_unpriced [] [example_item] [VNull]
           example_unpriced_item VUndefined (VStr "Book") VUndefined).
  - left. reflexivity.
  - reflexivity.
  - exact example_item_ok.
  - reflexivity.
  - reflexivity.
  - right. reflexivity.
Defined.

(** C4: for every draft with a truthy customer identity whose [line_items]
    is absent ([undefined] or [null]) or the empty array, [create] rejects
    with [FIELD_MANDATORY_ERROR('line_items')] and issues no request. *)
Theorem create_requires_line_items (this : RazorInvoices)
    (params : gmap string value) (log : list Request) :
  truthy (get params "customer_id") \/ truthy (get params "customer") ->
  params !! "line_items" = None
    \/ get params "line_items" = VUndefined
    \/ get params "line_items" = VNull
    \/ get params "line_items" = VArr [] ->
  rejects_locally (FIELD_MANDATORY_ERROR "line_items") (create this params) log.
Proof.
  intros Hid Hli. unfold rejects_locally.
  rewrite create_cases, (identity_check_passes _ _ Hid).
  assert (Hcheck : negb (ToBoolean (get params "line_items"))
                   || length_is_0 (get params "line_items") = true).
  { destruct Hli as [Hnone | [-> | [-> | ->]]]; try reflexivity.
    unfold get. rewrite Hnone. reflexivity. }
  rewrite Hcheck. reflexivity.
Qed.

Lemma create_requires_line_items_witness :
  rejects_locally (FIELD_MANDATORY_ERROR "line_items")
    (create example_this {[ "customer_id" := VStr "cust_1" ]}) []
  /\ rejects_locally (FIELD_MANDATORY_ERROR "line_items")
       (create example_this (<["line_items" := VArr []]> example_draft)) [].
Proof.
  split.
  - apply (create_requires_line_items example_this
             {[ "customer_id" := VStr "cust_1" ]} []).
    + left. reflexivity.
    + left. reflexivity.
  - apply (create_requires_line_items example_this
             (<["line_items" := VArr []]> example_draft) []).
    + left. reflexivity.
    + right. right. right. reflexivity.
Defined.

(** C10 (as amended): presence checks in [create] are truthiness checks.
    A draft whose [customer_id] is the empty string and whose [customer] is
    absent is rejected with the customer-identity error.  A line item with
    [item_id] absent, a truthy [name] and [amount] equal to the number [0]
    is rejected with the item_id-or-amount error, although an amount is
    supplied.  A line item with [item_id] absent and a [name] that is
    present but falsy (the empty string, [null]) is rejected with the
    item_id-or-name error, whatever its [amount]: the name rule comes
    first. *)
Theorem create_presence_is_truthiness (this : RazorInvoices)
    (log : list Request) :
  (forall params : gmap string value,
     params !! "customer_id" = Some (VStr "") ->
     params !! "customer" = None ->
     rejects_locally CUSTOMER_ERROR (create this params) log)
  /\ (forall (params o : gmap string value) (before after : list value)
        (name : value),
        truthy (get params "customer_id") \/ truthy (get params "customer") ->
        get params "line_items" = VArr (before ++ VObj o :: after) ->
        Forall item_ok before ->
        o !! "item_id" = None ->
        o !! "name" = Some name ->
        truthy name ->
        o !! "amount" = Some (VNum 0%float) ->
        rejects_locally ITEM_AMOUNT_ERROR (create this params) log)
  /\ (forall (params o : gmap string value) (before after : list value)
        (name : value),
        truthy (get params "customer_id") \/ truthy (get params "customer") ->
        get params "line_items" = VArr (before ++ VObj o :: after) ->
        Forall item_ok before ->
        o !! "item_id" = None ->
        o !! "name" = Some name ->
        falsy name ->
        rejects_locally ITEM_NAME_ERROR (create this params) log).
Proof.
  split; [| split].
  - intros params Hcid Hcust. unfold rejects_locally.
    rewrite create_cases. unfold get. rewrite Hcid, Hcust. reflexivity.
  - intros params o before after name Hid Hli Hbefore Hitem Hname Htruthy Hamount.
    unfold truthy in Htruthy.
    apply (create_stops_at_item this params log before after (VObj o));
      try assumption.
    unfold check_item. simpl. unfold get.
    rewrite Hitem, Hname, Hamount. simpl. rewrite Htruthy. reflexivity.
  - intros params o before after name Hid Hli Hbefore Hitem Hname Hfalsy.
    unfold falsy in Hfalsy.
    apply (create_stops_at_item this params log before after (VObj o));
      try assumption.
    unfold check_item. simpl. unfold get.
    rewrite Hitem, Hname. simpl. rewrite Hfalsy. reflexivity.
Qed.

Lemma create_presence_is_truthiness_witness :
  rejects_locally CUSTOMER_ERROR
    (create example_this (<["customer_id" := VStr ""]> example_draft)) []
  /\ rejects_locally ITEM_AMOUNT_ERROR
       (create example_this
          (<["line_items" := VArr [example_item; example_free_item]]>
             example_draft)) []
  /\ rejects_locally ITEM_NAME_ERROR
       (create example_this example_draft_unnamed_free) [].
Proof.
  split; [| split].
  - apply (proj1 (create_presence_is_truthiness example_this [])
             (<["customer_id" := VStr ""]> example_draft)); reflexivity.
  - apply (proj1 (proj2 (create_presence_is_truthiness example_this []))
             (<["line_items" := VArr [example_item; example_free_item]]>
                example_draft)
             {[ "name" := VStr "Gift"; "amount" := VNum 0%float ]}
             [example_item] [] (VStr "Gift")).
    + left. reflexivity.
    + reflexivity.
    + exact example_item_ok.
    + reflexivity.
    + reflexivity.
    + reflexivity.
    + reflexivity.
  - apply (proj2 (proj2 (create_presence_is_truthiness example_this []))
             example_draft_unnamed_free
             {[ "name" := VStr ""; "amount" := VNum 0%float ]}
             [] [] (VStr "")).
    + left. reflexivity.
    + reflexivity.
    + constructor.
    + reflexivity.
    + reflexivity.
    + reflexivity.
Defined.

(** C10 (as stated) fails on a line item whose [name] is present but
    empty: with [item_id] absent and [amount] equal to [0], the item is
    rejected with the item_id-or-name error, not with the item_id-or-amount
    error. *)
Lemma create_rejects_empty_name_first :
  (exists o : gmap string value,
     example_unnamed_free_item = VObj o
     /\ o !! "item_id" = None
     /\ o !! "name" = Some (VStr "")
     /\ o !! "amount" = Some (VNum 0%float))
  /\ get example_draft_unnamed_free "line_items"
     = VArr [example_unnamed_free_item]
  /\ rejects_locally ITEM_NAME_ERROR
       (create example_this example_draft_unnamed_free) []
  /\ ~ rejects_locally ITEM_AMOUNT_ERROR
         (create example_this example_draft_unnamed_free) [].
Proof.
  split; [| split; [| split]].
  - eexists. split; [reflexivity |]. repeat split.
  - reflexivity.
  - reflexivity.
  - unfold rejects_locally. discriminate.
Qed.

(** ** The coercions, kind by kind *)

Section CoercionFacts.
Context `{Builtins}.

Lemma ToString_cons (x : value) (rest : list value) :
  ToString (VArr (x :: rest))
  = match (match x with
           | VUndefined | VNull => Normal ""
           | _ => ToString x
           end) with
    | Throw e => Throw e
    | Normal e =>
        match rest with
        | [] => Normal e
        | _ :: _ =>
            match ToString (VArr rest) with
            | Throw e' => Throw e'
            | Normal r => Normal (e +:+ "," +:+ r)
            end
        end
    end.
Proof. reflexivity. Qed.

Lemma element_string_conversion (x : value) (p : string) :
  element_string x p ->
  match x with
  | VUndefined | VNull => Normal ""
  | _ => ToString x
  end = Normal p.
Proof. destruct x; simpl; intros Hx; rewrite ?Hx; reflexivity. Qed.

(** An array whose elements all have a string form is joined with commas. *)
Lemma ToString_join (l : list value) (parts : list string) :
  Forall2 element_string l parts ->
  ToString (VArr l) = Normal (String.concat "," parts).
Proof.
  induction 1 as [| x p l parts Hx Hrest IH]; [reflexivity |].
  rewrite ToString_cons, (element_string_conversion x p Hx).
  revert IH. destruct Hrest as [| y q l' parts' Hy Hrest']; intros IH;
    [reflexivity |].
  rewrite IH. reflexivity.
Qed.

(** An array with an element that has no string form has none itself. *)
Lemma ToString_array_throws (l : list value) (x : value) :
  In x l -> ToString x = Throw TypeError -> ToString (VArr l) = Throw TypeError.
Proof.
  intros Hin Hx. induction l as [| y l IH]; [destruct Hin |].
  rewrite ToString_cons. destruct Hin as [-> | Hin].
  - destruct x; try discriminate; rewrite Hx; reflexivity.
  - specialize (IH Hin).
    destruct (match y with
              | VUndefined | VNull => Normal ""
              | _ => ToString y
              end) as [e | []]; [| reflexivity].
    destruct l as [| z l]; [destruct Hin |]. rewrite IH. reflexivity.
Qed.

End CoercionFacts.

(** ** Properties of fetchAll *)

Lemma or_else_number (n d : float) :
  or_else (VNum n) (VNum d)
  = VNum (if PrimFloat.is_nan n || PrimFloat.eqb n 0%float then d else n).
Proof.
  unfold or_else. simpl.
  destruct (PrimFloat.is_nan n || PrimFloat.eqb n 0%float); reflexivity.
Qed.

Section FetchAllProperties.
Context `{Builtins} `{Helper}.

(** The two ways out of [fetchAll]: a coercion throws, or the request is
    handed to the transport. *)
Lemma fetchAll_cases (this : RazorInvoices) (query : option (gmap string value))
    (log : list Request) :
  fetchAll this query log =
    match Number (get (default ∅ query) "count") with
    | Throw e => (Throw e, log)
    | Normal count =>
        match Number (get (default ∅ query) "skip") with
        | Throw e => (Throw e, log)
        | Normal skip =>
            api_call this GET (resourceUrl this)
              (Some (VObj (normalized (default ∅ query) count skip))) log
        end
    end.
Proof.
  unfold fetchAll, normalized. cbv [mbind IO_bind lift mret IO_ret throw].
  destruct (Number (get (default ∅ query) "count")) as [count | e];
    [| reflexivity].
  destruct (Number (get (default ∅ query) "skip")) as [skip | e]; reflexivity.
Qed.

Lemma fetchAll_sends (this : RazorInvoices) (query : option (gmap string value))
    (log : list Request) (count skip : float) :
  Number (get (default ∅ query) "count") = Normal count ->
  Number (get (default ∅ query) "skip") = Normal skip ->
  sends this
    (request GET (resourceUrl this)
       (Some (VObj (normalized (default ∅ query) count skip))))
    (fetchAll this query) log.
Proof.
  intros Hcount Hskip. unfold sends.
  rewrite fetchAll_cases, Hcount, Hskip. reflexivity.
Qed.

(** Whatever [fetchAll] sends is the normalized query. *)
Lemma fetchAll_sent_data (this : RazorInvoices)
    (query : option (gmap string value)) (log : list Request)
    (d : gmap string value) :
  sends this (request GET (resourceUrl this) (Some (VObj d)))
    (fetchAll this query) log ->
  exists count skip,
    Number (get (default ∅ query) "count") = Normal count
    /\ Number (get (default ∅ query) "skip") = Normal skip
    /\ d = normalized (default ∅ query) count skip.
Proof.
  unfold sends. rewrite fetchAll_cases.
  destruct (Number (get (default ∅ query) "count")) as [count | e];
    [| discriminate].
  destruct (Number (get (default ∅ query) "skip")) as [skip | e];
    [| discriminate].
  unfold api_call. intros Heq. injection Heq as _ Hlog.
  apply app_inv_head in Hlog. injection Hlog as Hd.
  exists count, skip. auto.
Qed.

Lemma normalized_lookups (query : gmap string value) (count skip : float) :
  normalized query count skip !! "count"
    = Some (VNum (if PrimFloat.is_nan count || PrimFloat.eqb count 0%float
                  then 10%float else count))
  /\ normalized query count skip !! "skip"
     = Some (VNum (if PrimFloat.is_nan skip || PrimFloat.eqb skip 0%float
                   then 0%float else skip))
  /\ normalized query count skip !! "from"
     = Some (if ToBoolean (get query "from")
             then normalizeDate (get query "from") else get query "from")
  /\ normalized query count skip !! "to"
     = Some (if ToBoolean (get query "to")
             then normalizeDate (get query "to") else get query "to").
Proof.
  unfold normalized. rewrite !or_else_number.
  repeat split;
    rewrite ?lookup_insert_ne by discriminate; apply lookup_insert_eq.
Qed.

Lemma normalized_other (query : gmap string value) (count skip : float)
    (k : string) :
  k <> "from" -> k <> "to" -> k <> "count" -> k <> "skip" ->
  normalized query count skip !! k = query !! k.
Proof.
  intros Hfrom Hto Hcount Hskip. unfold normalized.
  rewrite !lookup_insert_ne by congruence. reflexivity.
Qed.

(** C5 (as amended): for every query, the omitted one included, whose
    [count] and [skip] have a numeric coercion, [fetchAll] throws nothing
    and rejects with nothing of its own: it issues exactly one GET to the
    base path and settles as the transport does.  In the data sent, [count]
    is [Number(query.count)], or [10] when that number is [NaN] or zero;
    [skip] is [Number(query.skip)], or [0] when that number is [NaN] or
    zero; [from] and [to] are replaced by [normalizeDate] of themselves
    exactly when they are truthy, and keep the query's value otherwise.
    When the coercion of [count] or of [skip] throws, [fetchAll] throws that
    [TypeError] and issues no request.  The coercion is the language's:
    [NaN] for [undefined], [0] for [null] and [false], [1] for [true], the
    number itself, the host's reading of a string, the time value of a
    date, the reading of an array's string form, [NaN] for an object that
    inherits [toString], and a [TypeError] for an object with an own
    [toString]. *)
Theorem fetchAll_normalizes_query (this : RazorInvoices)
    (query : option (gmap string value)) (log : list Request) :
  let q := default ∅ query in
  (forall count skip : float,
     Number (get q "count") = Normal count ->
     Number (get q "skip") = Normal skip ->
     exists d : gmap string value,
       sends this (request GET (resourceUrl this) (Some (VObj d)))
         (fetchAll this query) log
       /\ (forall r, fst (fetchAll this query log) = Normal (Rejected r) ->
                     exists e, r = TransportError e)
       /\ d !! "count"
          = Some (VNum (if PrimFloat.is_nan count || PrimFloat.eqb count 0%float
                        then 10%float else count))
       /\ d !! "skip"
          = Some (VNum (if PrimFloat.is_nan skip || PrimFloat.eqb skip 0%float
                        then 0%float else skip))
       /\ d !! "from"
          = Some (if ToBoolean (get q "from") then normalizeDate (get q "from")
                  else get q "from")
       /\ d !! "to"
          = Some (if ToBoolean (get q "to") then normalizeDate (get q "to")
                  else get q "to"))
  /\ (Number (get q "count") = Throw TypeError
      \/ Number (get q "skip") = Throw TypeError ->
      fetchAll this query log = (Throw TypeError, log))
  /\ (Number VUndefined = Normal nan
      /\ Number VNull = Normal 0%float
      /\ Number (VBool true) = Normal 1%float
      /\ Number (VBool false) = Normal 0%float
      /\ (forall n, Number (VNum n) = Normal n)
      /\ (forall s, Number (VStr s) = Normal (StringToNumber s))
      /\ (forall t, Number (VDate t) = Normal t)
      /\ (forall l s, ToString (VArr l) = Normal s ->
                      Number (VArr l) = Normal (StringToNumber s))
      /\ (forall l, ToString (VArr l) = Throw TypeError ->
                    Number (VArr l) = Throw TypeError)
      /\ (forall o, o !! "toString" = None -> Number (VObj o) = Normal nan)
      /\ (forall o x, o !! "toString" = Some x ->
                      Number (VObj o) = Throw TypeError)).
Proof.
  intros q. split; [| split].
  - intros count skip Hcount Hskip.
    pose proof (fetchAll_sends this query log count skip Hcount Hskip) as Hsends.
    exists (normalized q count skip). split; [exact Hsends |]. split.
    + intros r. unfold sends in Hsends. rewrite Hsends. simpl.
      destruct (api this log _); simpl; [discriminate |].
      intros [= <-]. eexists. reflexivity.
    + apply normalized_lookups.
  - intros Hthrow. rewrite fetchAll_cases. fold q.
    destruct Hthrow as [-> | Hskip]; [reflexivity |].
    destruct (Number (get q "count")) as [count | []]; [| reflexivity].
    rewrite Hskip. reflexivity.
  - repeat split; try reflexivity.
    + intros l s Hs. unfold Number. rewrite Hs. reflexivity.
    + intros l Hs. unfold Number. rewrite Hs. reflexivity.
    + intros o Ho. unfold Number. rewrite Ho. reflexivity.
    + intros o x Ho. unfold Number. rewrite Ho. reflexivity.
Qed.

(** C6: every field of the query other than [from], [to], [count] and
    [skip] is in the data of the GET under the same key with the same
    value, and the data has no other key besides those four.  This holds of
    whatever GET [fetchAll] sends, and it sends one whenever [count] and
    [skip] have a numeric coercion. *)
Theorem fetchAll_keeps_other_fields (this : RazorInvoices)
    (query : option (gmap string value)) (log : list Request) (k : string) :
  k <> "from" -> k <> "to" -> k <> "count" -> k <> "skip" ->
  (forall d : gmap string value,
     sends this (request GET (resourceUrl this) (Some (VObj d)))
       (fetchAll this query) log ->
     d !! k = default ∅ query !! k)
  /\ (forall count skip : float,
        Number (get (default ∅ query) "count") = Normal count ->
        Number (get (default ∅ query) "skip") = Normal skip ->
        exists d : gmap string value,
          sends this (request GET (resourceUrl this) (Some (VObj d)))
            (fetchAll this query) log
          /\ d !! k = default ∅ query !! k).
Proof.
  intros Hfrom Hto Hcount Hskip. split.
  - intros d Hsends.
    destruct (fetchAll_sent_data this query log d Hsends)
      as (count & skip & _ & _ & ->).
    apply normalized_other; assumption.
  - intros count skip Hc Hs. eexists.
    split; [apply (fetchAll_sends this query log count skip Hc Hs) |].
    apply normalized_other; assumption.
Qed.

End FetchAllProperties.

(** ** Properties of fetch, cancel, edit and notify *)

Lemma api_call_not_local (this : RazorInvoices) (m : Method) (u : string)
    (d : option value) (log : list Request) (r : Reason) :
  fst (api_call this m u d log) = Normal (Rejected r) ->
  exists e, r = TransportError e.
Proof.
  unfold api_call. simpl. destruct (api this log _); simpl; [discriminate |].
  intros [= <-]. eexists. reflexivity.
Qed.

Section IdentifiedProperties.
Context `{Builtins}.

(** With a truthy identifier each operation converts it to a string, which
    may throw, and then calls the transport. *)
Lemma fetch_cases (this : RazorInvoices) (invoiceId : value) (log : list Request) :
  truthy invoiceId ->
  fetch this invoiceId log =
    match ToString invoiceId with
    | Throw e => (Throw e, log)
    | Normal id => api_call this GET (resourceUrl this +:+ "/" +:+ id) None log
    end.
Proof.
  unfold truthy, fetch. intros ->. cbv [negb mbind IO_bind lift mret IO_ret throw].
  destruct (ToString invoiceId); reflexivity.
Qed.

Lemma cancel_cases (this : RazorInvoices) (invoiceId : value) (log : list Request) :
  truthy invoiceId ->
  cancel this invoiceId log =
    match ToString invoiceId with
    | Throw e => (Throw e, log)
    | Normal id =>
        api_call this POST (resourceUrl this +:+ "/" +:+ id +:+ "/cancel") None log
    end.
Proof.
  unfold truthy, cancel. intros ->. cbv [negb mbind IO_bind lift mret IO_ret throw].
  destruct (ToString invoiceId); reflexivity.
Qed.

Lemma edit_cases (this : RazorInvoices) (invoiceId params : value)
    (log : list Request) :
  truthy invoiceId -> truthy params ->
  edit this invoiceId params log =
    match ToString invoiceId with
    | Throw e => (Throw e, log)
    | Normal id =>
        api_call this PATCH (resourceUrl this +:+ "/" +:+ id) (Some params) log
    end.
Proof.
  unfold truthy, edit. intros -> ->.
  cbv [negb mbind IO_bind lift mret IO_ret throw].
  destruct (ToString invoiceId); reflexivity.
Qed.

Lemma edit_rejects_params (this : RazorInvoices) (invoiceId params : value)
    (log : list Request) :
  truthy invoiceId -> falsy params ->
  rejects_locally (FIELD_MANDATORY_ERROR "Params") (edit this invoiceId params) log.
Proof. unfold truthy, falsy, rejects_locally, edit. intros -> ->. reflexivity. Qed.

Lemma notify_cases (this : RazorInvoices) (invoiceId medium : value)
    (log : list Request) :
  truthy invoiceId ->
  notify this invoiceId medium log =
    match ToString invoiceId with
    | Throw e => (Throw e, log)
    | Normal id =>
        match ToString medium with
        | Throw e => (Throw e, log)
        | Normal m =>
            api_call this POST
              (resourceUrl this +:+ "/" +:+ id +:+ "/notify_by/" +:+ m) None log
        end
    end.
Proof.
  unfold truthy, notify. intros ->.
  cbv [negb mbind IO_bind lift mret IO_ret throw].
  destruct (ToString invoiceId); [| reflexivity].
  destruct (ToString medium); reflexivity.
Qed.

(** C7: for each of [fetch], [cancel], [edit] and [notify]: on a falsy
    invoice identifier (the empty string and [undefined] among them) the
    operation rejects with [MISSING_ID_ERROR] and issues no request; on a
    truthy identifier it never rejects with [MISSING_ID_ERROR]. *)
Theorem identifier_is_required (this : RazorInvoices)
    (invoiceId params medium : value) (log : list Request) :
  (falsy invoiceId ->
     rejects_locally MISSING_ID_ERROR (fetch this invoiceId) log
     /\ rejects_locally MISSING_ID_ERROR (cancel this invoiceId) log
     /\ rejects_locally MISSING_ID_ERROR (edit this invoiceId params) log
     /\ rejects_locally MISSING_ID_ERROR (notify this invoiceId medium) log)
  /\ (truthy invoiceId ->
        fst (fetch this invoiceId log) <> Normal (Rejected MISSING_ID_ERROR)
        /\ fst (cancel this invoiceId log) <> Normal (Rejected MISSING_ID_ERROR)
        /\ fst (edit this invoiceId params log)
           <> Normal (Rejected MISSING_ID_ERROR)
        /\ fst (notify this invoiceId medium log)
           <> Normal (Rejected MISSING_ID_ERROR)).
Proof.
  split.
  - unfold falsy, rejects_locally, fetch, cancel, edit, notify. intros ->.
    repeat split.
  - intros Hid. repeat split; intros Hrej.
    + rewrite (fetch_cases this _ log Hid) in Hrej.
      destruct (ToString invoiceId); [| discriminate].
      destruct (api_call_not_local _ _ _ _ _ _ Hrej). discriminate.
    + rewrite (cancel_cases this _ log Hid) in Hrej.
      destruct (ToString invoiceId); [| discriminate].
      destruct (api_call_not_local _ _ _ _ _ _ Hrej). discriminate.
    + destruct (ToBoolean params) eqn:Hparams.
      * rewrite (edit_cases this _ _ log Hid Hparams) in Hrej.
        destruct (ToString invoiceId); [| discriminate].
        destruct (api_call_not_local _ _ _ _ _ _ Hrej). discriminate.
      * rewrite (edit_rejects_params this _ _ log Hid Hparams) in Hrej.
        discriminate.
    + rewrite (notify_cases this _ medium log Hid) in Hrej.
      destruct (ToString invoiceId); [| discriminate].
      destruct (ToString medium); [| discriminate].
      destruct (api_call_not_local _ _ _ _ _ _ Hrej). discriminate.
Qed.

(** C8: for every truthy [invoiceId], [edit] with a [null] or [undefined]
    [params] rejects with [FIELD_MANDATORY_ERROR('Params')] and issues no
    request; with a [params] that is an object it issues exactly one PATCH
    to the base path suffixed with [/{invoiceId}], with [params] as the
    body, and settles as the transport does.  The suffix is the string form
    of the identifier, which for a string is the string itself. *)
Theorem edit_requires_params (this : RazorInvoices)
    (invoiceId params : value) (log : list Request) :
  truthy invoiceId ->
  (params = VNull \/ params = VUndefined ->
     rejects_locally (FIELD_MANDATORY_ERROR "Params")
       (edit this invoiceId params) log)
  /\ (forall (o : gmap string value) (id : string),
        params = VObj o ->
        ToString invoiceId = Normal id ->
        sends this
          (request PATCH (resourceUrl this +:+ "/" +:+ id) (Some params))
          (edit this invoiceId params) log)
  /\ (forall s : string, invoiceId = VStr s -> ToString invoiceId = Normal s).
Proof.
  intros Hid. split; [| split].
  - intros Hparams. apply edit_rejects_params; [exact Hid |].
    destruct Hparams as [-> | ->]; reflexivity.
  - intros o id -> Hstr. unfold sends.
    rewrite (edit_cases this invoiceId (VObj o) log Hid eq_refl), Hstr.
    reflexivity.
  - intros s ->. reflexivity.
Qed.

(** C9 (as amended): [notify] does not validate [medium].  For every truthy
    [invoiceId] and every [medium] that has a string form, it issues
    exactly one POST without a body to the base path suffixed with
    [/{invoiceId}/notify_by/{medium}], the string form of [medium] being
    put into the URL as it is, and settles as the transport does.  When the
    identifier or [medium] has no string form, the template literal throws
    a [TypeError] and no request is issued.  The string form is the
    language's: ["undefined"], ["null"], ["true"], ["false"], a string
    itself, the host's rendering of a number and of a date, the
    comma-joined forms of the elements of an array ([undefined] and [null]
    counting as empty), ["[object Object]"] for an object that inherits
    [toString]; an object with an own [toString], and an array holding
    one, have none. *)
Theorem notify_does_not_validate_medium (this : RazorInvoices)
    (invoiceId medium : value) (log : list Request) :
  truthy invoiceId ->
  (forall id m : string,
     ToString invoiceId = Normal id ->
     ToString medium = Normal m ->
     sends this
       (request POST
          (resourceUrl this +:+ "/" +:+ id +:+ "/notify_by/" +:+ m) None)
       (notify this invoiceId medium) log)
  /\ (ToString invoiceId = Throw TypeError
      \/ ToString medium = Throw TypeError ->
      notify this invoiceId medium log = (Throw TypeError, log))
  /\ (ToString VUndefined = Normal "undefined"
      /\ ToString VNull = Normal "null"
      /\ ToString (VBool true) = Normal "true"
      /\ ToString (VBool false) = Normal "false"
      /\ (forall s, ToString (VStr s) = Normal s)
      /\ (forall n, ToString (VNum n) = Normal (Number_toString n))
      /\ (forall t, ToString (VDate t) = Normal (Date_toString t))
      /\ (forall l parts, Forall2 element_string l parts ->
                          ToString (VArr l) = Normal (String.concat "," parts))
      /\ (forall l x, In x l -> ToString x = Throw TypeError ->
                      ToString (VArr l) = Throw TypeError)
      /\ (forall o, o !! "toString" = None ->
                    ToString (VObj o) = Normal "[object Object]")
      /\ (forall o x, o !! "toString" = Some x ->
                      ToString (VObj o) = Throw TypeError)).
Proof.
  intros Hid. split; [| split].
  - intros id m Hstr Hmedium. unfold sends.
    rewrite (notify_cases this invoiceId medium log Hid), Hstr, Hmedium.
    reflexivity.
  - intros Hthrow. rewrite (notify_cases this invoiceId medium log Hid).
    destruct Hthrow as [-> | Hmedium]; [reflexivity |].
    destruct (ToString invoiceId) as [id | []]; [| reflexivity].
    rewrite Hmedium. reflexivity.
  - repeat split; try reflexivity.
    + apply ToString_join.
    + apply ToString_array_throws.
    + intros o Ho. simpl. rewrite Ho. reflexivity.
    + intros o x Ho. simpl. rewrite Ho. reflexivity.
Qed.

End IdentifiedProperties.

(** ** The properties on the example host *)

Lemma fetchAll_normalizes_query_witness :
  exists d : gmap string value,
    sends example_this (request GET "/invoices" (Some (VObj d)))
      (fetchAll example_this (Some example_query)) []
    /\ (forall r,
          fst (fetchAll example_this (Some example_query) [])
            = Normal (Rejected r) ->
          exists e, r = TransportError e)
    /\ d !! "count" = Some (VNum 10%float)
    /\ d !! "skip" = Some (VNum (-1)%float)
    /\ d !! "from" = Some (VNum 5%float)
    /\ d !! "to" = Some VUndefined.
Proof.
  exact (proj1 (fetchAll_normalizes_query example_this (Some example_query) [])
           nan (-1)%float eq_refl eq_refl).
Defined.

(** C5 (as stated) fails on a query whose [count] is an object with an own
    [toString] that is not a function: [Number(count)] throws, and
    [fetchAll] throws with it instead of issuing a GET. *)
Lemma fetchAll_throws_on_unprintable_count :
  fetchAll example_this (Some {[ "count" := example_unprintable ]}) []
  = (Throw TypeError, [])
  /\ ~ (exists d : gmap string value,
          sends example_this (request GET "/invoices" (Some (VObj d)))
            (fetchAll example_this (Some {[ "count" := example_unprintable ]}))
            []).
Proof.
  split; [reflexivity |]. intros (d & Hsends). unfold sends in Hsends.
  discriminate.
Qed.

Lemma fetchAll_keeps_other_fields_witness :
  exists d : gmap string value,
    sends example_this (request GET "/invoices" (Some (VObj d)))
      (fetchAll example_this (Some example_query)) []
    /\ d !! "status" = Some (VStr "paid").
Proof.
  apply (proj2 (fetchAll_keeps_other_fields example_this (Some example_query) []
                  "status" ltac:(discriminate) ltac:(discriminate)
                  ltac:(discriminate) ltac:(discriminate))
           nan (-1)%float); reflexivity.
Defined.

Lemma identifier_is_required_witness :
  (rejects_locally MISSING_ID_ERROR (fetch example_this (VStr "")) []
   /\ rejects_locally MISSING_ID_ERROR (cancel example_this (VStr "")) []
   /\ rejects_locally MISSING_ID_ERROR
        (edit example_this (VStr "") (VObj ∅)) []
   /\ rejects_locally MISSING_ID_ERROR
        (notify example_this (VStr "") (VStr "sms")) [])
  /\ (rejects_locally MISSING_ID_ERROR (fetch example_this VUndefined) []
      /\ rejects_locally MISSING_ID_ERROR (cancel example_this VUndefined) []
      /\ rejects_locally MISSING_ID_ERROR
           (edit example_this VUndefined (VObj ∅)) []
      /\ rejects_locally MISSING_ID_ERROR
           (notify example_this VUndefined (VStr "sms")) [])
  /\ (fst (fetch example_this (VStr "inv_1") [])
        <> Normal (Rejected MISSING_ID_ERROR)
      /\ fst (cancel example_this (VStr "inv_1") [])
           <> Normal (Rejected MISSING_ID_ERROR)
      /\ fst (edit example_this (VStr "inv_1") (VObj ∅) [])
           <> Normal (Rejected MISSING_ID_ERROR)
      /\ fst (notify example_this (VStr "inv_1") (VStr "sms") [])
           <> Normal (Rejected MISSING_ID_ERROR)).
Proof.
  split; [| split].
  - apply (proj1 (identifier_is_required example_this (VStr "") (VObj ∅)
                    (VStr "sms") [])). reflexivity.
  - apply (proj1 (identifier_is_required example_this VUndefined (VObj ∅)
                    (VStr "sms") [])). reflexivity.
  - apply (proj2 (identifier_is_required example_this (VStr "inv_1") (VObj ∅)
                    (VStr "sms") [])). reflexivity.
Defined.

Lemma edit_requires_params_witness :
  rejects_locally (FIELD_MANDATORY_ERROR "Params")
    (edit example_this (VStr "inv_1") VNull) []
  /\ rejects_locally (FIELD_MANDATORY_ERROR "Params")
       (edit example_this (VStr "inv_1") VUndefined) []
  /\ sends example_this
       (request PATCH "/invoices/inv_1"
          (Some (VObj {[ "description" := VStr "new" ]})))
       (edit example_this (VStr "inv_1")
          (VObj {[ "description" := VStr "new" ]})) [].
Proof.
  split; [| split].
  - apply (proj1 (edit_requires_params example_this (VStr "inv_1")
                    VNull [] eq_refl)).
    left. reflexivity.
  - apply (proj1 (edit_requires_params example_this (VStr "inv_1")
                    VUndefined [] eq_refl)).
    right. reflexivity.
  - apply (proj1 (proj2 (edit_requires_params example_this (VStr "inv_1")
                           (VObj {[ "description" := VStr "new" ]}) [] eq_refl))
             {[ "description" := VStr "new" ]} "inv_1"); reflexivity.
Defined.

Lemma notify_does_not_validate_medium_witness :
  sends example_this (request POST "/invoices/inv_1/notify_by/fax" None)
    (notify example_this (VStr "inv_1") (VStr "fax")) []
  /\ sends example_this (request POST "/invoices/inv_1/notify_by/undefined" None)
       (notify example_this (VStr "inv_1") VUndefined) []
  /\ sends example_this (request POST "/invoices/inv_1/notify_by/a,,true" None)
       (notify example_this (VStr "inv_1")
          (VArr [VStr "a"; VNull; VBool true])) [].
Proof.
  split; [| split].
  - apply (proj1 (notify_does_not_validate_medium example_this (VStr "inv_1")
                    (VStr "fax") [] eq_refl) "inv_1" "fax"); reflexivity.
  - apply (proj1 (notify_does_not_validate_medium example_this (VStr "inv_1")
                    VUndefined [] eq_refl) "inv_1" "undefined"); reflexivity.
  - apply (proj1 (notify_does_not_validate_medium example_this (VStr "inv_1")
                    (VArr [VStr "a"; VNull; VBool true]) [] eq_refl)
             "inv_1" "a,,true"); reflexivity.
Defined.

(** C9 (as stated) fails on a [medium] that is an object with an own
    [toString] that is not a function: the template literal throws, and
    [notify] issues no POST. *)
Lemma notify_throws_on_unprintable_medium :
  truthy (VStr "inv_1")
  /\ notify example_this (VStr "inv_1") example_unprintable []
     = (Throw TypeError, [])
  /\ ~ (exists u : string,
          sends example_this (request POST u None)
            (notify example_this (VStr "inv_1") example_unprintable) []).
Proof.
  split; [reflexivity |]. split; [reflexivity |].
  intros (u & Hsends). unfold sends in Hsends. discriminate.
Qed.

(** ** The tested properties of the specification, run on the example host *)

(** [fetchAll] with [{}]: one GET with [count = 10], [skip = 0] and
    [from], [to] undefined. *)
Example fetchAll_empty_query :
  exists d : gmap string value,
    sends example_this (request GET "/invoices" (Some (VObj d)))
      (fetchAll example_this (Some ∅)) []
    /\ fetchAll example_this None = fetchAll example_this (Some ∅)
    /\ d !! "count" = Some (VNum 10%float)
    /\ d !! "skip" = Some (VNum 0%float)
    /\ d !! "from" = Some VUndefined
    /\ d !! "to" = Some VUndefined.
Proof.
  eexists.
  split; [apply (fetchAll_sends example_this (Some ∅) [] nan nan); reflexivity |].
  repeat split.
Qed.

(** [fetchAll] with [{count: "abc", skip: -1}] and a date: [count] falls
    back to [10], the negative [skip] is sent as it is, the date is
    normalized, the absent [to] stays undefined. *)
Example fetchAll_example_query :
  exists d : gmap string value,
    sends example_this (request GET "/invoices" (Some (VObj d)))
      (fetchAll example_this (Some example_query)) []
    /\ d !! "count" = Some (VNum 10%float)
    /\ d !! "skip" = Some (VNum (-1)%float)
    /\ d !! "from" = Some (VNum 5%float)
    /\ d !! "to" = Some VUndefined
    /\ d !! "status" = Some (VStr "paid").
Proof.
  eexists.
  split; [apply (fetchAll_sends example_this (Some example_query) []
                   nan (-1)%float); reflexivity |].
  repeat split.
Qed.

(** A line item that is [null] makes the loop throw once it is reached. *)
Example create_throws_on_null_item :
  create example_this
    (<["line_items" := VArr [example_item; VNull]]> example_draft) []
  = (Throw TypeError, []).
Proof. reflexivity. Qed.

(** [cancel] posts to the cancel sub-action of the invoice. *)
Example cancel_example :
  sends example_this (request POST "/invoices/inv_1/cancel" None)
    (cancel example_this (VStr "inv_1")) [].
Proof. reflexivity. Qed.

(** A [params] that is not [null] but falsy lies outside the declared type
    of [edit]; at run time the guard [!params] rejects it like [null]. *)
Example edit_rejects_zero_params :
  rejects_locally (FIELD_MANDATORY_ERROR "Params")
    (edit example_this (VStr "inv_1") (VNum 0%float)) [].
Proof. reflexivity. Qed.

(** ** Further properties of create *)

Lemma log_grows (log : list Request) (req : Request) : log ++ [req] <> log.
Proof.
  intros Heq. apply (f_equal length) in Heq.
  rewrite length_app in Heq. simpl in Heq. lia.
Qed.

(** Either the draft is valid, or [create] ends the same way on every
    instance and every log, without a request. *)
Lemma create_outcome (this : RazorInvoices) (params : gmap string value) :
  valid_draft params
  \/ exists c, local_completion c
       /\ forall this' log, create this' params log = (c, log).
Proof.
  unfold local_completion.
  destruct (negb (ToBoolean (get params "customer_id"))
            && negb (ToBoolean (get params "customer"))) eqn:Hid.
  { right. eexists. split; [right; left; reflexivity |].
    intros. rewrite create_cases, Hid. reflexivity. }
  destruct (negb (ToBoolean (get params "line_items"))
            || length_is_0 (get params "line_items")) eqn:Hli.
  { right. eexists. split; [right; right; left; reflexivity |].
    intros. rewrite create_cases, Hid, Hli. reflexivity. }
  destruct (iterate (get params "line_items")) as [items | []] eqn:Hiter.
  - destruct (check_items items) as [[r |] | []] eqn:Hitems.
    + right. exists (Normal (Rejected r)). split.
      * destruct (check_items_reason items r Hitems) as [-> | ->]; auto.
      * intros. rewrite create_cases, Hid, Hli, Hiter, Hitems. reflexivity.
    + left. apply (create_request_only_if_valid this params []).
      rewrite create_cases, Hid, Hli, Hiter, Hitems. discriminate.
    + right. exists (Throw TypeError). split; [left; reflexivity |].
      intros. rewrite create_cases, Hid, Hli, Hiter, Hitems. reflexivity.
  - right. exists (Throw TypeError). split; [left; reflexivity |].
    intros. rewrite create_cases, Hid, Hli, Hiter. reflexivity.
Qed.

(** X1: [create] issues a request exactly when the draft passes the three
    checks.  On every other draft it ends with a [TypeError] or with one of
    its four rejections, the same on every instance and after every log, and
    leaves the log as it was: validation never consults the transport. *)
Theorem create_is_local_unless_valid (this : RazorInvoices)
    (params : gmap string value) (log : list Request) :
  (valid_draft params <-> snd (create this params log) <> log)
  /\ (valid_draft params
      \/ exists c, local_completion c
           /\ forall this' log', create this' params log' = (c, log')).
Proof.
  split; [split |].
  - intros Hvalid. rewrite (create_valid_posts this params log Hvalid).
    apply log_grows.
  - apply create_request_only_if_valid.
  - apply (create_outcome this).
Qed.

(** X2: when the loop of [create] reaches an item that is [null] or
    [undefined] before any item that breaks a rule, [create] throws a
    [TypeError] synchronously: it returns no promise and issues no request,
    whatever the later items are. *)
Theorem create_throws_at_nullish_item (this : RazorInvoices)
    (params : gmap string value) (log : list Request)
    (before after : list value) (it : value) :
  truthy (get params "customer_id") \/ truthy (get params "customer") ->
  get params "line_items" = VArr (before ++ it :: after) ->
  Forall item_ok before ->
  it = VNull \/ it = VUndefined ->
  create this params log = (Throw TypeError, log).
Proof.
  intros Hid Hli Hbefore Hit.
  rewrite create_cases, (identity_check_passes _ _ Hid), Hli.
  assert (Hlen : length_is_0 (VArr (before ++ it :: after)) = false)
    by (destruct before; reflexivity).
  rewrite Hlen. simpl.
  rewrite (check_items_skip before (it :: after) Hbefore).
  destruct Hit as [-> | ->]; reflexivity.
Qed.

Lemma create_throws_at_nullish_item_witness :
  create example_this example_draft_null_item [] = (Throw TypeError, []).
Proof.
  apply (create_throws_at_nullish_item example_this example_draft_null_item []
           [example_item] [example_unpriced_item] VNull).
  - left. reflexivity.
  - reflexivity.
  - exact example_item_ok.
  - left. reflexivity.
Defined.

(** X3: a truthy [line_items] that is not an array.  A non-empty string is
    iterated by character and rejected at the first one with the
    item_id-or-name error.  Any other value (a number, [true], a date, an
    object) is rejected with [FIELD_MANDATORY_ERROR('line_items')] when its
    [length] is strictly [0], and otherwise makes the loop throw a
    [TypeError], since it is not iterable.  No request is issued. *)
Theorem create_line_items_not_an_array (this : RazorInvoices)
    (params : gmap string value) (log : list Request) :
  truthy (get params "customer_id") \/ truthy (get params "customer") ->
  truthy (get params "line_items") ->
  (forall items, get params "line_items" <> VArr items) ->
  create this params log =
    match get params "line_items" with
    | VStr _ => (Normal (Rejected ITEM_NAME_ERROR), log)
    | v => if length_is_0 v
           then (Normal (Rejected (FIELD_MANDATORY_ERROR "line_items")), log)
           else (Throw TypeError, log)
    end.
Proof.
  intros Hid Hli Harr. unfold truthy in Hli.
  rewrite create_cases, (identity_check_passes _ _ Hid), Hli. simpl.
  destruct (get params "line_items") as [| | b | n | s | t | items | o];
    simpl in *; try discriminate; try reflexivity.
  - destruct s; [discriminate | reflexivity].
  - exfalso. apply (Harr items). reflexivity.
Qed.

Lemma create_line_items_not_an_array_witness :
  create example_this (<["line_items" := VStr "ab"]> example_draft) []
    = (Normal (Rejected ITEM_NAME_ERROR), [])
  /\ create example_this (<["line_items" := VNum 3%float]> example_draft) []
     = (Throw TypeError, [])
  /\ create example_this
       (<["line_items" := VObj {[ "length" := VNum 0%float ]}]> example_draft) []
     = (Normal (Rejected (FIELD_MANDATORY_ERROR "line_items")), []).
Proof.
  split; [| split].
  - refine (create_line_items_not_an_array example_this
             (<["line_items" := VStr "ab"]> example_draft) [] _ _ _);
      [left; reflexivity | reflexivity | discriminate].
  - refine (create_line_items_not_an_array example_this
             (<["line_items" := VNum 3%float]> example_draft) [] _ _ _);
      [left; reflexivity | reflexivity | discriminate].
  - refine (create_line_items_not_an_array example_this
             (<["line_items" := VObj {[ "length" := VNum 0%float ]}]>
                example_draft) [] _ _ _);
      [left; reflexivity | reflexivity | discriminate].
Defined.

(** Drafts that agree on the three fields [create] reads are valid
    together. *)
Lemma valid_draft_agree (p p' : gmap string value) :
  get p "customer_id" = get p' "customer_id" ->
  get p "customer" = get p' "customer" ->
  get p "line_items" = get p' "line_items" ->
  valid_draft p -> valid_draft p'.
Proof. unfold valid_draft. intros <- <- <-. auto. Qed.

(** X4: [create] checks [customer_id], [customer] and [line_items] and
    nothing else.  Two drafts that agree on these three fields are treated
    alike, whatever their other fields ([order_id] among them) hold or
    lack: either both are posted, or both end without a request in the very
    same way. *)
Theorem create_checks_three_fields_only (this : RazorInvoices)
    (p p' : gmap string value) (log : list Request) :
  get p "customer_id" = get p' "customer_id" ->
  get p "customer" = get p' "customer" ->
  get p "line_items" = get p' "line_items" ->
  (snd (create this p log) <> log /\ snd (create this p' log) <> log)
  \/ (snd (create this p log) = log
      /\ create this p' log = create this p log).
Proof.
  intros Hcid Hcust Hli.
  destruct (create_outcome this p) as [Hvalid | (c & _ & Hc)].
  - left.
    pose proof (valid_draft_agree p p' Hcid Hcust Hli Hvalid) as Hvalid'.
    rewrite (create_valid_posts this p log Hvalid).
    rewrite (create_valid_posts this p' log Hvalid').
    split; apply log_grows.
  - right. rewrite (Hc this log). split; [reflexivity |].
    destruct (create_outcome this p') as [Hvalid' | (c' & _ & Hc')].
    + exfalso.
      assert (Hvalid : valid_draft p)
        by (apply (valid_draft_agree p' p); auto).
      pose proof (create_valid_posts this p log Hvalid) as Hposts.
      rewrite (Hc this log) in Hposts. unfold api_call in Hposts.
      injection Hposts as _ Hlog. symmetry in Hlog.
      exact (log_grows _ _ Hlog).
    + rewrite (Hc' this log). f_equal.
      pose proof (Hc this log) as Hp. pose proof (Hc' this log) as Hp'.
      rewrite create_cases in Hp, Hp'.
      rewrite <- Hcid, <- Hcust, <- Hli in Hp'.
      destruct (negb (ToBoolean (get p "customer_id"))
                && negb (ToBoolean (get p "customer"))); [congruence |].
      destruct (negb (ToBoolean (get p "line_items"))
                || length_is_0 (get p "line_items")); [congruence |].
      destruct (iterate (get p "line_items")) as [items | e]; [| congruence].
      destruct (check_items items) as [[r |] | e]; [congruence | | congruence].
      exfalso. unfold api_call in Hp. injection Hp as _ Hlog.
      exact (log_grows _ _ Hlog).
Qed.

Lemma create_checks_three_fields_only_witness :
  (snd (create example_this example_draft []) <> []
   /\ snd (create example_this
             (<["order_id" := VStr "order_1"]> example_draft) []) <> [])
  \/ (snd (create example_this example_draft []) = []
      /\ create example_this (<["order_id" := VStr "order_1"]> example_draft) []
         = create example_this example_draft []).
Proof.
  apply (create_checks_three_fields_only example_this example_draft
           (<["order_id" := VStr "order_1"]> example_draft) []);
    reflexivity.
Defined.

(** ** Further properties of fetchAll *)

Lemma get_insert_eq (o : gmap string value) (k : string) (v : value) :
  get (<[k := v]> o) k = v.
Proof. unfold get. rewrite lookup_insert_eq. reflexivity. Qed.

Lemma get_insert_ne (o : gmap string value) (k k' : string) (v : value) :
  k <> k' -> get (<[k := v]> o) k' = get o k'.
Proof. intros Hne. unfold get. rewrite lookup_insert_ne by exact Hne. reflexivity. Qed.

Lemma get_lookup (o : gmap string value) (k : string) (v : value) :
  o !! k = Some v -> get o k = v.
Proof. intros Hk. unfold get. rewrite Hk. reflexivity. Qed.

Lemma or_else_truthy (a b : value) : truthy a -> or_else a b = a.
Proof. unfold truthy, or_else. intros ->. reflexivity. Qed.

Section FetchAllFurther.
Context `{Builtins} `{Helper}.

(** A property of the normalized query is a property of whatever GET
    [fetchAll] sends, and one is sent whenever the counters coerce. *)
Lemma fetchAll_sent_property (this : RazorInvoices)
    (query : option (gmap string value)) (log : list Request)
    (P : gmap string value -> Prop) :
  (forall count skip : float,
     Number (get (default ∅ query) "count") = Normal count ->
     Number (get (default ∅ query) "skip") = Normal skip ->
     P (normalized (default ∅ query) count skip)) ->
  (forall d : gmap string value,
     sends this (request GET (resourceUrl this) (Some (VObj d)))
       (fetchAll this query) log -> P d)
  /\ (forall count skip : float,
        Number (get (default ∅ query) "count") = Normal count ->
        Number (get (default ∅ query) "skip") = Normal skip ->
        exists d : gmap string value,
          sends this (request GET (resourceUrl this) (Some (VObj d)))
            (fetchAll this query) log
          /\ P d).
Proof.
  intros HP. split.
  - intros d Hsends.
    destruct (fetchAll_sent_data this query log d Hsends)
      as (count & skip & Hc & Hs & ->).
    apply HP; assumption.
  - intros count skip Hc Hs. eexists.
    split; [apply (fetchAll_sends this query log count skip Hc Hs) |].
    apply HP; assumption.
Qed.

(** X5: in whatever GET [fetchAll] sends, [count] is a number that is
    neither [NaN] nor zero and [skip] is a number that is not [NaN]; a GET
    is sent whenever [count] and [skip] have a numeric coercion. *)
Theorem fetchAll_sends_usable_pagination (this : RazorInvoices)
    (query : option (gmap string value)) (log : list Request) :
  let usable (d : gmap string value) :=
    exists count skip : float,
      d !! "count" = Some (VNum count)
      /\ d !! "skip" = Some (VNum skip)
      /\ PrimFloat.is_nan count = false
      /\ PrimFloat.eqb count 0%float = false
      /\ PrimFloat.is_nan skip = false in
  (forall d : gmap string value,
     sends this (request GET (resourceUrl this) (Some (VObj d)))
       (fetchAll this query) log -> usable d)
  /\ (forall count skip : float,
        Number (get (default ∅ query) "count") = Normal count ->
        Number (get (default ∅ query) "skip") = Normal skip ->
        exists d : gmap string value,
          sends this (request GET (resourceUrl this) (Some (VObj d)))
            (fetchAll this query) log
          /\ usable d).
Proof.
  intros usable. apply fetchAll_sent_property. intros count skip _ _.
  destruct (normalized_lookups (default ∅ query) count skip)
    as (Hcount & Hskip & _).
  unfold usable. eexists. eexists.
  split; [exact Hcount |]. split; [exact Hskip |]. repeat split.
  - destruct (PrimFloat.is_nan count || PrimFloat.eqb count 0) eqn:Hc;
      [reflexivity |].
    apply orb_false_elim in Hc. apply Hc.
  - destruct (PrimFloat.is_nan count || PrimFloat.eqb count 0) eqn:Hc;
      [reflexivity |].
    apply orb_false_elim in Hc. apply Hc.
  - destruct (PrimFloat.is_nan skip || PrimFloat.eqb skip 0) eqn:Hs;
      [reflexivity |].
    apply orb_false_elim in Hs. apply Hs.
Qed.

(** X6: [fetchAll] checks no range: a [count] or [skip] given as a truthy
    number, negative and fractional ones included, is sent as it is in
    whatever GET is sent, and one is sent whenever the other counter has a
    numeric coercion too. *)
Theorem fetchAll_sends_numbers_unchecked (this : RazorInvoices)
    (query : option (gmap string value)) (log : list Request)
    (k : string) (n : float) :
  k = "count" \/ k = "skip" ->
  default ∅ query !! k = Some (VNum n) ->
  truthy (VNum n) ->
  (forall d : gmap string value,
     sends this (request GET (resourceUrl this) (Some (VObj d)))
       (fetchAll this query) log -> d !! k = Some (VNum n))
  /\ (forall count skip : float,
        Number (get (default ∅ query) "count") = Normal count ->
        Number (get (default ∅ query) "skip") = Normal skip ->
        exists d : gmap string value,
          sends this (request GET (resourceUrl this) (Some (VObj d)))
            (fetchAll this query) log
          /\ d !! k = Some (VNum n)).
Proof.
  intros Hk Hq Hn.
  apply (fetchAll_sent_property this query log (fun d => d !! k = Some (VNum n))).
  intros count skip Hcount Hskip. unfold normalized.
  destruct Hk as [-> | ->].
  - rewrite (get_lookup _ _ _ Hq) in Hcount. injection Hcount as <-.
    rewrite lookup_insert_ne by discriminate. rewrite lookup_insert_eq.
    rewrite (or_else_truthy _ _ Hn). reflexivity.
  - rewrite (get_lookup _ _ _ Hq) in Hskip. injection Hskip as <-.
    rewrite lookup_insert_eq.
    rewrite (or_else_truthy _ _ Hn). reflexivity.
Qed.

Lemma normalized_again (query : gmap string value) (count skip : float) :
  exists count' skip' : float,
    Number (get (normalized query count skip) "count") = Normal count'
    /\ Number (get (normalized query count skip) "skip") = Normal skip'
    /\ normalized (normalized query count skip) count' skip' !! "count"
       = normalized query count skip !! "count"
    /\ normalized (normalized query count skip) count' skip' !! "skip"
       = normalized query count skip !! "skip".
Proof.
  assert (Hc : get (normalized query count skip) "count"
               = or_else (VNum count) (VNum 10%float)).
  { unfold normalized. rewrite get_insert_ne by discriminate.
    apply get_insert_eq. }
  assert (Hs : get (normalized query count skip) "skip"
               = or_else (VNum skip) (VNum 0%float)).
  { unfold normalized. apply get_insert_eq. }
  rewrite Hc, Hs, !or_else_number. eexists. eexists.
  split; [reflexivity |]. split; [reflexivity |].
  destruct (normalized_lookups (normalized query count skip)
              (if PrimFloat.is_nan count || PrimFloat.eqb count 0%float
               then 10%float else count)
              (if PrimFloat.is_nan skip || PrimFloat.eqb skip 0%float
               then 0%float else skip)) as (Hcount' & Hskip' & _).
  destruct (normalized_lookups query count skip) as (Hcount & Hskip & _).
  rewrite Hcount', Hskip', Hcount, Hskip. split; f_equal; f_equal.
  - destruct (PrimFloat.is_nan count || PrimFloat.eqb count 0%float) eqn:Hzero;
      [reflexivity | rewrite Hzero; reflexivity].
  - destruct (PrimFloat.is_nan skip || PrimFloat.eqb skip 0%float) eqn:Hzero;
      [reflexivity | rewrite Hzero; reflexivity].
Qed.

(** X7: the pagination that [fetchAll] sends is stable: given back as a
    query, the data of a GET it has sent makes it send a GET with the same
    [count] and [skip]. *)
Theorem fetchAll_pagination_is_stable (this : RazorInvoices)
    (query : option (gmap string value)) (log log' : list Request) :
  let stable (d : gmap string value) :=
    exists d' : gmap string value,
      sends this (request GET (resourceUrl this) (Some (VObj d')))
        (fetchAll this (Some d)) log'
      /\ d' !! "count" = d !! "count"
      /\ d' !! "skip" = d !! "skip" in
  (forall d : gmap string value,
     sends this (request GET (resourceUrl this) (Some (VObj d)))
       (fetchAll this query) log -> stable d)
  /\ (forall count skip : float,
        Number (get (default ∅ query) "count") = Normal count ->
        Number (get (default ∅ query) "skip") = Normal skip ->
        exists d : gmap string value,
          sends this (request GET (resourceUrl this) (Some (VObj d)))
            (fetchAll this query) log
          /\ stable d).
Proof.
  intros stable. apply fetchAll_sent_property. intros count skip _ _.
  destruct (normalized_again (default ∅ query) count skip)
    as (count' & skip' & Hc & Hs & Hcount & Hskip).
  unfold stable. eexists.
  split; [apply (fetchAll_sends this (Some _) log' count' skip' Hc Hs) |].
  split; [exact Hcount | exact Hskip].
Qed.

(** X8: the data of whatever GET [fetchAll] sends has the keys of the query
    and the four keys [from], [to], [count] and [skip], the latter also
    when the query lacks them (an absent [from] or [to] is sent as a key
    holding [undefined]). *)
Theorem fetchAll_data_keys (this : RazorInvoices)
    (query : option (gmap string value)) (log : list Request) :
  let keyed (d : gmap string value) :=
    dom d = dom (default ∅ query) ∪ {[ "from"; "to"; "count"; "skip" ]}
    /\ (default ∅ query !! "from" = None -> d !! "from" = Some VUndefined)
    /\ (default ∅ query !! "to" = None -> d !! "to" = Some VUndefined) in
  (forall d : gmap string value,
     sends this (request GET (resourceUrl this) (Some (VObj d)))
       (fetchAll this query) log -> keyed d)
  /\ (forall count skip : float,
        Number (get (default ∅ query) "count") = Normal count ->
        Number (get (default ∅ query) "skip") = Normal skip ->
        exists d : gmap string value,
          sends this (request GET (resourceUrl this) (Some (VObj d)))
            (fetchAll this query) log
          /\ keyed d).
Proof.
  intros keyed. apply fetchAll_sent_property. intros count skip _ _.
  unfold keyed. split; [| split].
  - unfold normalized. rewrite !dom_insert_L.
    generalize (dom (default ∅ query)).
    clear. intros keys. apply set_eq. intros k.
    rewrite !elem_of_union, !elem_of_singleton. tauto.
  - intros Hnone.
    destruct (normalized_lookups (default ∅ query) count skip)
      as (_ & _ & Hfrom & _).
    rewrite Hfrom. unfold get. rewrite Hnone. reflexivity.
  - intros Hnone.
    destruct (normalized_lookups (default ∅ query) count skip)
      as (_ & _ & _ & Hto).
    rewrite Hto. unfold get. rewrite Hnone. reflexivity.
Qed.

End FetchAllFurther.

Lemma fetchAll_sends_usable_pagination_witness :
  exists d : gmap string value,
    sends example_this (request GET "/invoices" (Some (VObj d)))
      (fetchAll example_this (Some example_query)) []
    /\ exists count skip : float,
         d !! "count" = Some (VNum count)
         /\ d !! "skip" = Some (VNum skip)
         /\ PrimFloat.is_nan count = false
         /\ PrimFloat.eqb count 0%float = false
         /\ PrimFloat.is_nan skip = false.
Proof.
  apply (proj2 (fetchAll_sends_usable_pagination example_this
                  (Some example_query) []) nan (-1)%float); reflexivity.
Defined.

Lemma fetchAll_sends_numbers_unchecked_witness :
  (exists d : gmap string value,
     sends example_this (request GET "/invoices" (Some (VObj d)))
       (fetchAll example_this (Some example_paging_query)) []
     /\ d !! "count" = Some (VNum 2.5%float))
  /\ (exists d : gmap string value,
        sends example_this (request GET "/invoices" (Some (VObj d)))
          (fetchAll example_this (Some example_paging_query)) []
        /\ d !! "skip" = Some (VNum (-1)%float)).
Proof.
  split.
  - apply (proj2 (fetchAll_sends_numbers_unchecked example_this
                    (Some example_paging_query) [] "count" 2.5%float
                    (or_introl eq_refl) eq_refl eq_refl)
             2.5%float (-1)%float); reflexivity.
  - apply (proj2 (fetchAll_sends_numbers_unchecked example_this
                    (Some example_paging_query) [] "skip" (-1)%float
                    (or_intror eq_refl) eq_refl eq_refl)
             2.5%float (-1)%float); reflexivity.
Defined.

Lemma fetchAll_pagination_is_stable_witness :
  exists d : gmap string value,
    sends example_this (request GET "/invoices" (Some (VObj d)))
      (fetchAll example_this (Some example_query)) []
    /\ exists d' : gmap string value,
         sends example_this (request GET "/invoices" (Some (VObj d')))
           (fetchAll example_this (Some d)) []
         /\ d' !! "count" = d !! "count"
         /\ d' !! "skip" = d !! "skip".
Proof.
  apply (proj2 (fetchAll_pagination_is_stable example_this
                  (Some example_query) [] []) nan (-1)%float); reflexivity.
Defined.

Lemma fetchAll_data_keys_witness :
  exists d : gmap string value,
    sends example_this (request GET "/invoices" (Some (VObj d)))
      (fetchAll example_this (Some example_query)) []
    /\ dom d = dom example_query ∪ {[ "from"; "to"; "count"; "skip" ]}
    /\ (example_query !! "from" = None -> d !! "from" = Some VUndefined)
    /\ (example_query !! "to" = None -> d !! "to" = Some VUndefined).
Proof.
  apply (proj2 (fetchAll_data_keys example_this (Some example_query) [])
           nan (-1)%float); reflexivity.
Defined.

(** ** Further properties of the operations together *)

Lemma local_issues_nothing (m : IO Settled) (c : Completion Settled) :
  (forall log, m log = (c, log)) -> issues_at_most_one m.
Proof.
  intros Hm. exists []. split; [simpl; lia |].
  intros log. rewrite Hm, app_nil_r. reflexivity.
Qed.

Lemma api_call_issues_one (this : RazorInvoices) (m : IO Settled)
    (meth : Method) (u : string) (d : option value) :
  (forall log, m log = api_call this meth u d log) -> issues_at_most_one m.
Proof.
  intros Hm. exists [request meth u d]. split; [simpl; lia |].
  intros log. rewrite Hm. reflexivity.
Qed.

Section OperationsTogether.
Context `{Builtins} `{Helper}.

(** X9: each of the six operations issues one request at most, adds it at
    the end of the log without touching what was issued before, and issues
    the same request whatever the log was: no operation makes a second
    round trip, retries, or reads the history. *)
Theorem operations_issue_at_most_one (this : RazorInvoices)
    (draft : gmap string value) (query : option (gmap string value))
    (invoiceId params medium : value) :
  issues_at_most_one (create this draft)
  /\ issues_at_most_one (fetchAll this query)
  /\ issues_at_most_one (fetch this invoiceId)
  /\ issues_at_most_one (cancel this invoiceId)
  /\ issues_at_most_one (edit this invoiceId params)
  /\ issues_at_most_one (notify this invoiceId medium).
Proof.
  repeat split.
  - destruct (create_outcome this draft) as [Hvalid | (c & _ & Hc)].
    + eapply api_call_issues_one. intros log.
      apply (create_valid_posts this draft log Hvalid).
    + apply (local_issues_nothing _ c), Hc.
  - destruct (Number (get (default ∅ query) "count")) as [count | e] eqn:Hc;
      [destruct (Number (get (default ∅ query) "skip")) as [skip | e] eqn:Hs |].
    + eapply api_call_issues_one. intros log.
      rewrite fetchAll_cases, Hc, Hs. reflexivity.
    + eapply local_issues_nothing. intros log.
      rewrite fetchAll_cases, Hc, Hs. reflexivity.
    + eapply local_issues_nothing. intros log.
      rewrite fetchAll_cases, Hc. reflexivity.
  - destruct (ToBoolean invoiceId) eqn:Hid.
    + destruct (ToString invoiceId) as [id | e] eqn:Hstr.
      * eapply api_call_issues_one. intros log.
        rewrite (fetch_cases this _ log Hid), Hstr. reflexivity.
      * eapply local_issues_nothing. intros log.
        rewrite (fetch_cases this _ log Hid), Hstr. reflexivity.
    + eapply local_issues_nothing. intros log. unfold fetch.
      rewrite Hid. reflexivity.
  - destruct (ToBoolean invoiceId) eqn:Hid.
    + destruct (ToString invoiceId) as [id | e] eqn:Hstr.
      * eapply api_call_issues_one. intros log.
        rewrite (cancel_cases this _ log Hid), Hstr. reflexivity.
      * eapply local_issues_nothing. intros log.
        rewrite (cancel_cases this _ log Hid), Hstr. reflexivity.
    + eapply local_issues_nothing. intros log. unfold cancel.
      rewrite Hid. reflexivity.
  - destruct (ToBoolean invoiceId) eqn:Hid.
    + destruct (ToBoolean params) eqn:Hparams.
      * destruct (ToString invoiceId) as [id | e] eqn:Hstr.
        -- eapply api_call_issues_one. intros log.
           rewrite (edit_cases this _ _ log Hid Hparams), Hstr. reflexivity.
        -- eapply local_issues_nothing. intros log.
           rewrite (edit_cases this _ _ log Hid Hparams), Hstr. reflexivity.
      * eapply local_issues_nothing. intros log.
        apply (edit_rejects_params this _ _ log Hid Hparams).
    + eapply local_issues_nothing. intros log. unfold edit.
      rewrite Hid. reflexivity.
  - destruct (ToBoolean invoiceId) eqn:Hid.
    + destruct (ToString invoiceId) as [id | e] eqn:Hstr;
        [destruct (ToString medium) as [m | e] eqn:Hmedium |].
      * eapply api_call_issues_one. intros log.
        rewrite (notify_cases this _ _ log Hid), Hstr, Hmedium. reflexivity.
      * eapply local_issues_nothing. intros log.
        rewrite (notify_cases this _ _ log Hid), Hstr, Hmedium. reflexivity.
      * eapply local_issues_nothing. intros log.
        rewrite (notify_cases this _ _ log Hid), Hstr. reflexivity.
    + eapply local_issues_nothing. intros log. unfold notify.
      rewrite Hid. reflexivity.
Qed.

(** X10: nothing is cached.  Two calls of [fetch] in sequence, with the
    same identifier or with two, issue two requests, each the one the call
    issues alone; the second is answered by the transport anew, after the
    first.  The identifiers are truthy and have the string forms [s1] and
    [s2], as every non-empty string has (itself). *)
Theorem fetch_is_not_cached (this : RazorInvoices) (id1 id2 : value)
    (s1 s2 : string) (log : list Request) :
  truthy id1 -> truthy id2 ->
  ToString id1 = Normal s1 -> ToString id2 = Normal s2 ->
  let req1 := request GET (resourceUrl this +:+ "/" +:+ s1) None in
  let req2 := request GET (resourceUrl this +:+ "/" +:+ s2) None in
  (fetch this id1 ≫= λ _, fetch this id2) log
  = (Normal (settle (api this (log ++ [req1]) req2)), log ++ [req1; req2]).
Proof.
  intros Hid1 Hid2 Hs1 Hs2. cbv zeta. unfold mbind, IO_bind.
  rewrite (fetch_cases this id1 log Hid1), Hs1. unfold api_call at 1.
  rewrite (fetch_cases this id2 _ Hid2), Hs2. unfold api_call.
  rewrite <- app_assoc. reflexivity.
Qed.

End OperationsTogether.

Lemma fetch_is_not_cached_witness :
  (fetch example_this (VStr "inv_1") ≫= λ _, fetch example_this (VStr "inv_1")) []
  = (Normal (Fulfilled (VObj {[ "entity" := VStr "invoice"; "id" := VStr "i" ]})),
     [request GET "/invoices/inv_1" None; request GET "/invoices/inv_1" None]).
Proof.
  exact (fetch_is_not_cached example_this (VStr "inv_1") (VStr "inv_1")
           "inv_1" "inv_1" [] eq_refl eq_refl eq_refl eq_refl).
Defined.
